(** * Verification of the HTTP access-log middleware [logger.go]

    A shallow embedding of the package [logger]: the response observer
    [responseLogger], the middleware [loggerHandler] with its five line
    formats, and the helpers they use.  Go values are modelled as the
    source has them: [int] as a 64-bit two's-complement integer carried
    in [Z] with its wrap-around written out, [string] as a byte string,
    [float64] as the kernel's binary64 numbers, [http.Header] as a finite
    map, interfaces as type classes, and the objects a handler holds by
    reference ([io.Writer], [*statsd.Client], the response writer, the
    clock) as explicit state that every call threads through. *)

From Stdlib Require Import ZArith Lia List.
From Stdlib Require Import Strings.String Strings.Ascii Numbers.DecimalString.
From Stdlib Require Import Floats.
From stdpp Require Import base strings gmap.

Local Open Scope string_scope.
Local Open Scope Z_scope.

(** ** Go base types *)

Module GoInt.

(** [int] on a 64-bit target. *)
Definition min_int : Z := - 2 ^ 63.
Definition max_int : Z := 2 ^ 63 - 1.

Definition in_range (z : Z) : Prop := min_int <= z <= max_int.

(** Two's-complement wrap-around of an arithmetic result. *)
Definition wrap (z : Z) : Z := (z + 2 ^ 63) mod 2 ^ 64 - 2 ^ 63.

(** [a + b] and [a - b] on [int]. *)
Definition add (a b : Z) : Z := wrap (a + b).
Definition sub (a b : Z) : Z := wrap (a - b).

End GoInt.

(** [error]: [None] is [nil], [Some msg] an error value with its message. *)
Definition error : Type := option string.

(** The byte [0x22], the double quote of the quoted log fields. *)
Definition dquote : string := String (ascii_of_nat 34) EmptyString.

(** The byte [0x0a] that [fmt.Fprintln] appends. *)
Definition newline : string := String (ascii_of_nat 10) EmptyString.

Module strconv.

(** [strconv.Itoa]: base 10, a leading minus for negative numbers. *)
Definition Itoa (i : Z) : string := NilZero.string_of_int (Z.to_int i).

End strconv.

Module strings.

(** [strings.Join]. *)
Fixpoint Join (elems : list string) (sep : string) : string :=
  match elems with
  | [] => ""
  | [a] => a
  | a :: rest => a +:+ sep +:+ Join rest sep
  end.

End strings.

(** ** float64 and the verb [%.3f] *)

Definition float64 : Set := PrimFloat.float.

Module Float64.

(** Conversion [float64(i)] of an [int]: the nearest binary64 number. *)
Definition of_int (i : Z) : float64 :=
  if i =? GoInt.min_int then
    PrimFloat.opp (PrimFloat.mul (PrimFloat.of_uint63 (Uint63.of_Z (2 ^ 62)))
                                 (PrimFloat.of_uint63 (Uint63.of_Z 2)))
  else if i <? 0 then PrimFloat.opp (PrimFloat.of_uint63 (Uint63.of_Z (- i)))
  else PrimFloat.of_uint63 (Uint63.of_Z i).

(** The constants [1e9] and [1e6], both exact in binary64. *)
Definition f1e9 : float64 := of_int 1000000000.
Definition f1e6 : float64 := of_int 1000000.

(** [num / den] rounded to the nearest integer, ties to the even one;
    [den] is positive. *)
Definition round_half_even (num den : Z) : Z :=
  let q := num / den in
  let r := num mod den in
  if (den <? 2 * r) || ((2 * r =? den) && Z.odd q) then q + 1 else q.

(** Three decimal digits, zero padded, of [0 <= n < 1000]. *)
Definition pad3 (n : Z) : string :=
  strconv.Itoa (n / 100) +:+ strconv.Itoa (n / 10 mod 10)
    +:+ strconv.Itoa (n mod 10).

(** The magnitude [m * 2^e] in thousandths, correctly rounded. *)
Definition thousandths (m : positive) (e : Z) : Z :=
  if 0 <=? e then Z.pos m * 2 ^ e * 1000
  else round_half_even (Z.pos m * 1000) (2 ^ (- e)).

Definition sign_prefix (neg : bool) : string := if neg then "-" else "".

(** [fmt]'s rendering of a [float64] under [%.3f]: the exact binary
    value rounded half-to-even to three decimals ([strconv.FormatFloat]
    with format ['f'] and precision 3), infinities and NaN spelled out. *)
Definition format_f3 (x : float64) : string :=
  match Prim2SF x with
  | S754_nan => "NaN"
  | S754_infinity neg => if neg then "-Inf" else "+Inf"
  | S754_zero neg => sign_prefix neg +:+ "0.000"
  | S754_finite neg m e =>
      let q := thousandths m e in
      sign_prefix neg +:+ strconv.Itoa (q / 1000) +:+ "." +:+ pad3 (q mod 1000)
  end.

End Float64.

(** ** Package [time] *)

Module time.

(** A [time.Time] as [time.Now] returns it: the wall-clock reading and
    the monotonic reading, both in nanoseconds; the monotonic reading is
    an [int64]. *)
Record Time : Set := { wall : Z; mono : Z }.

(** [time.Duration]: an [int64] count of nanoseconds. *)
Definition Duration : Set := Z.

Definition Second : Duration := 1000000000.

(** [Time.Sub] of two readings that both carry the monotonic clock: the
    difference of the monotonic readings, saturated at the bounds of
    [Duration] when the subtraction overflows. *)
Definition Sub (t u : Time) : Duration :=
  let d := GoInt.sub (mono t) (mono u) in
  if (d <? 0) && (mono u <? mono t) then GoInt.max_int
  else if (0 <? d) && (mono t <? mono u) then GoInt.min_int
  else d.

(** [Duration.Seconds]: integer division and remainder truncate toward
    zero, the sum is a [float64] sum. *)
Definition Seconds (d : Duration) : float64 :=
  let sec := Z.quot d Second in
  let nsec := Z.rem d Second in
  PrimFloat.add (Float64.of_int sec)
                (PrimFloat.div (Float64.of_int nsec) Float64.f1e9).

(** The clock of the process: the readings that the successive calls of
    [time.Now] will return. *)
Definition Clock : Set := nat -> Time.

Definition Now (clk : Clock) : Time * Clock :=
  (clk 0%nat, fun n => clk (S n)).

End time.

(** ** Package [net]: [SplitHostPort] *)

Module net.

Definition len (s : string) : Z := Z.of_nat (String.length s).

(** First index of byte [c] in [s], or [-1]. *)
Fixpoint IndexByte (s : string) (c : ascii) : Z :=
  match s with
  | EmptyString => -1
  | String a rest =>
      if Ascii.eqb a c then 0
      else let i := IndexByte rest c in if i <? 0 then -1 else i + 1
  end.

(** Last index of byte [c] in [s], or [-1]. *)
Fixpoint LastIndexByte (s : string) (c : ascii) : Z :=
  match s with
  | EmptyString => -1
  | String a rest =>
      let i := LastIndexByte rest c in
      if 0 <=? i then i + 1 else if Ascii.eqb a c then 0 else -1
  end.

(** The slice [s[i:j]] and the byte [s[i]] for indices within bounds. *)
Definition slice (s : string) (i j : Z) : string :=
  String.substring (Z.to_nat i) (Z.to_nat (j - i)) s.

Definition byte_is (s : string) (i : Z) (c : ascii) : bool :=
  match String.get (Z.to_nat i) s with
  | Some a => Ascii.eqb a c
  | None => false
  end.

(** [&AddrError{Err: why, Addr: addr}], carried as its message. *)
Definition AddrError (addr why : string) : error :=
  Some ("address " +:+ addr +:+ ": " +:+ why).

Definition missingPort : string := "missing port in address".
Definition tooManyColons : string := "too many colons in address".

Definition addrErr (addr why : string) : string * string * error :=
  ("", "", AddrError addr why).

(** The common tail of [SplitHostPort] once [host] and the offsets [j]
    and [k] are known; [i] is the index of the last colon. *)
Definition splitTail (hostport host : string) (i j k : Z)
  : string * string * error :=
  if 0 <=? IndexByte (slice hostport j (len hostport)) "["
  then addrErr hostport "unexpected '[' in address"
  else if 0 <=? IndexByte (slice hostport k (len hostport)) "]"
  then addrErr hostport "unexpected ']' in address"
  else (host, slice hostport (i + 1) (len hostport), None).

(** [net.SplitHostPort]: host, port and error. *)
Definition SplitHostPort (hostport : string) : string * string * error :=
  let i := LastIndexByte hostport ":" in
  if i <? 0 then addrErr hostport missingPort
  else if byte_is hostport 0 "[" then
    let end_ := IndexByte hostport "]" in
    if end_ <? 0 then addrErr hostport "missing ']' in address"
    else if end_ + 1 =? len hostport then addrErr hostport missingPort
    else if end_ + 1 =? i then
      splitTail hostport (slice hostport 1 end_) i 1 (end_ + 1)
    else if byte_is hostport (end_ + 1) ":"
    then addrErr hostport tooManyColons
    else addrErr hostport missingPort
  else
    let host := slice hostport 0 i in
    if 0 <=? IndexByte host ":" then addrErr hostport tooManyColons
    else splitTail hostport host i 0 0.

End net.

(** ** Package [net/http]: requests, headers and the two interfaces *)

Module http.

Definition StatusOK : Z := 200.

(** [http.Header]: a map from canonical header names to their values. *)
Abbreviation Header := (gmap string (list string)).

(** [Header.Get] at a key that is already in canonical form. *)
Definition Get (hd : Header) (key : string) : string :=
  match hd !! key with
  | Some (v :: _) => v
  | _ => ""
  end.

(** [url.Userinfo] and the part of [url.URL] the logger reads; a [nil]
    [User] is [None]. *)
Record Userinfo : Set := { username : string; password : string }.
Record URL : Set := { User : option Userinfo }.

Definition Username (u : Userinfo) : string := username u.

(** The fields of [http.Request] the logger reads; [URL_] and [Headers]
    are the fields [URL] and [Header], renamed apart from their types. *)
Record Request : Type := {
  Method : string;
  RequestURI : string;
  Proto : string;
  RemoteAddr : string;
  URL_ : URL;
  Headers : Header
}.

Definition Referer (req : Request) : string := Get (Headers req) "Referer".
Definition UserAgent (req : Request) : string :=
  Get (Headers req) "User-Agent".

(** [http.ResponseWriter] over a state [RW] of the underlying writer.
    [rw_Flusher] is the outcome of the type assertion to [http.Flusher]:
    the [Flush] method when the dynamic type has one. *)
Class ResponseWriter (RW : Type) : Type := {
  rw_Header : RW -> Header;
  rw_Write : RW -> string -> RW * (Z * error);
  rw_WriteHeader : RW -> Z -> RW;
  rw_Flusher : option (RW -> RW)
}.

(** What a handler does with the [ResponseWriter] it is given: a tree of
    method calls, each continued with what the call returned. *)
Inductive Calls : Type :=
| Done
| CallHeader (k : Header -> Calls)
| CallWrite (bytes : string) (k : Z -> error -> Calls)
| CallWriteHeader (code : Z) (k : Calls)
| CallFlush (k : Calls).

(** [http.Handler]: the calls its [ServeHTTP] makes for a request. *)
Definition Handler : Type := Request -> Calls.

End http.

Module io.

(** [io.Writer] over a state [W] of the sink. *)
Class Writer (W : Type) : Type := {
  Write : W -> string -> W * (Z * error)
}.

End io.

Module fmt.

(** [fmt.Fprintln(w, s)] for one string operand: a single [Write] of the
    operand followed by a newline; the count and the error of that
    [Write] are returned. *)
Definition Fprintln {W : Type} `{io.Writer W} (w : W) (s : string)
  : W * (Z * error) :=
  io.Write w (s +:+ newline).

(** [fmt.Sprintf("%.3f ms", x)]. *)
Definition Sprintf_3f_ms (x : float64) : string :=
  Float64.format_f3 x +:+ " ms".

End fmt.

(** ** Package [statsd]: the metrics client *)

Module statsd.

(** One measurement handed to the client. *)
Inductive Measurement : Set :=
| MIncr (name : string) (tags : list string) (rate : float64)
| MGauge (name : string) (value : float64) (tags : list string)
    (rate : float64)
| MTiming (name : string) (value : time.Duration) (tags : list string)
    (rate : float64).

(** The client is an opaque collaborator of the middleware, which drops
    the error every method returns: its state is the sequence of the
    measurements submitted to it, oldest first. *)
Definition Client : Set := list Measurement.

Definition Incr (c : Client) (name : string) (tags : list string)
  (rate : float64) : Client := app c [MIncr name tags rate].

Definition Gauge (c : Client) (name : string) (value : float64)
  (tags : list string) (rate : float64) : Client :=
  app c [MGauge name value tags rate].

Definition Timing (c : Client) (name : string) (value : time.Duration)
  (tags : list string) (rate : float64) : Client :=
  app c [MTiming name value tags rate].

End statsd.

(** ** Package [logger] *)

(** A call that either returns a value or panics with a message. *)
Inductive outcome (A : Type) : Type :=
| Returns (a : A)
| Panics (msg : string).
Arguments Returns {A} a.
Arguments Panics {A} msg.

(** [Type] is an [int].  The constants are numbered by [iota] within a
    [const] block whose first entry is [Version], so they start at 1. *)
Definition Version : string := "0.3.0".
Definition CombineLoggerType : Z := 1.
Definition CommonLoggerType : Z := 2.
Definition DevLoggerType : Z := 3.
Definition ShortLoggerType : Z := 4.
Definition TinyLoggerType : Z := 5.
Definition timeFormat : string := "02/Jan/2006:15:04:05 -0700".

(** The struct [responseLogger]; [rw] is the state of the writer it wraps. *)
Record responseLogger (RW : Type) : Type := {
  rw : RW;
  start : time.Time;
  status : Z;
  size : Z
}.
Arguments rw {RW} _.
Arguments start {RW} _.
Arguments status {RW} _.
Arguments size {RW} _.

(** The struct [loggerHandler]; [writer] and [stats] are the states of the
    sink and of the metrics client, [None] is the [nil] client. *)
Record loggerHandler (RW W : Type) : Type := {
  h : http.Handler;
  formatType : Z;
  writer : W;
  logFn : W -> responseLogger RW -> http.Request -> time.Clock -> W * time.Clock;
  stats : option statsd.Client
}.
Arguments h {RW W} _.
Arguments formatType {RW W} _.
Arguments writer {RW W} _.
Arguments logFn {RW W} _.
Arguments stats {RW W} _.

Section Logger.

Context {RW W : Type} `{http.ResponseWriter RW} `{io.Writer W}.

(** [Time.Format] of the standard library, applied to a time and a
    layout. *)
Variable time_Format : time.Time -> string -> string.

(** *** The response observer *)

Definition Header (rl : responseLogger RW) : http.Header :=
  http.rw_Header (rw rl).

Definition Write (rl : responseLogger RW) (bytes : string)
  : responseLogger RW * (Z * error) :=
  let status1 := if status rl =? 0 then http.StatusOK else status rl in
  let '(rw1, (n, err)) := http.rw_Write (rw rl) bytes in
  ({| rw := rw1; start := start rl; status := status1;
      size := GoInt.add (size rl) n |}, (n, err)).

Definition WriteHeader (rl : responseLogger RW) (code : Z)
  : responseLogger RW :=
  {| rw := http.rw_WriteHeader (rw rl) code; start := start rl;
     status := code; size := size rl |}.

Definition Flush (rl : responseLogger RW) : responseLogger RW :=
  match http.rw_Flusher with
  | Some flush =>
      {| rw := flush (rw rl); start := start rl; status := status rl;
         size := size rl |}
  | None => rl
  end.

(** The inner handler running against the observer. *)
Fixpoint serve (p : http.Calls) (rl : responseLogger RW) : responseLogger RW :=
  match p with
  | http.Done => rl
  | http.CallHeader k => serve (k (Header rl)) rl
  | http.CallWrite bytes k =>
      let '(rl1, (n, err)) := Write rl bytes in serve (k n err) rl1
  | http.CallWriteHeader code k => serve k (WriteHeader rl code)
  | http.CallFlush k => serve k (Flush rl)
  end.

(** *** Field extraction *)

Definition extractUsername (req : http.Request) : string :=
  match http.User (http.URL_ req) with
  | Some u =>
      let name := http.Username u in
      if String.eqb name "" then "-" else name
  | None => "-"
  end.

Definition extractRemoteIP (req : http.Request) : string :=
  let '(host, _, _) := net.SplitHostPort (http.RemoteAddr req) in host.

Definition parseResponseTime (start_ : time.Time) (clk : time.Clock)
  : string * time.Clock :=
  let '(now, clk1) := time.Now clk in
  (fmt.Sprintf_3f_ms
     (PrimFloat.div (time.Seconds (time.Sub now start_)) Float64.f1e6),
   clk1).

(** *** The five formats *)

Definition logFn_t : Type :=
  W -> responseLogger RW -> http.Request -> time.Clock -> W * time.Clock.

Definition logCombined : logFn_t := fun w rl req clk =>
  (fst (fmt.Fprintln w (strings.Join [
     extractRemoteIP req;
     "-";
     extractUsername req;
     "[" +:+ time_Format (start rl) timeFormat +:+ "]";
     dquote +:+ http.Method req;
     http.RequestURI req;
     http.Proto req +:+ dquote;
     strconv.Itoa (status rl);
     strconv.Itoa (size rl);
     dquote +:+ http.Referer req +:+ dquote;
     dquote +:+ http.UserAgent req +:+ dquote
   ] " ")), clk).

Definition logCommon : logFn_t := fun w rl req clk =>
  (fst (fmt.Fprintln w (strings.Join [
     extractRemoteIP req;
     "-";
     extractUsername req;
     "[" +:+ time_Format (start rl) timeFormat +:+ "]";
     dquote +:+ http.Method req;
     http.RequestURI req;
     http.Proto req +:+ dquote;
     strconv.Itoa (status rl);
     strconv.Itoa (size rl)
   ] " ")), clk).

Definition logDev : logFn_t := fun w rl req clk =>
  let '(elapsed, clk1) := parseResponseTime (start rl) clk in
  (fst (fmt.Fprintln w (strings.Join [
     http.Method req;
     http.RequestURI req;
     strconv.Itoa (status rl);
     elapsed;
     "-";
     strconv.Itoa (size rl)
   ] " ")), clk1).

Definition logShort : logFn_t := fun w rl req clk =>
  let '(elapsed, clk1) := parseResponseTime (start rl) clk in
  (fst (fmt.Fprintln w (strings.Join [
     extractRemoteIP req;
     extractUsername req;
     http.Method req;
     http.RequestURI req;
     http.Proto req;
     strconv.Itoa (status rl);
     strconv.Itoa (size rl);
     "-";
     elapsed
   ] " ")), clk1).

Definition logTiny : logFn_t := fun w rl req clk =>
  let '(elapsed, clk1) := parseResponseTime (start rl) clk in
  (fst (fmt.Fprintln w (strings.Join [
     http.Method req;
     http.RequestURI req;
     strconv.Itoa (status rl);
     strconv.Itoa (size rl);
     "-";
     elapsed
   ] " ")), clk1).

Definition logFnForType (t : Z) : outcome logFn_t :=
  if t =? CombineLoggerType then Returns logCombined
  else if t =? CommonLoggerType then Returns logCommon
  else if t =? DevLoggerType then Returns logDev
  else if t =? ShortLoggerType then Returns logShort
  else if t =? TinyLoggerType then Returns logTiny
  else Panics "Should never get here.".

(** *** Construction and the request path *)

(** [Handler]: the panic of [logFnForType] aborts the construction; the
    field [formatType] is left at its zero value. *)
Definition Handler (h_ : http.Handler) (writer_ : W) (t : Z)
  (stats_ : option statsd.Client) : outcome (loggerHandler RW W) :=
  match logFnForType t with
  | Returns f =>
      Returns {| h := h_; formatType := 0; writer := writer_; logFn := f;
                 stats := stats_ |}
  | Panics msg => Panics msg
  end.

(** [DefaultHandler]: the Combined format on the sink [os.Stdout], whose
    state is [stdout], and no metrics client. *)
Definition DefaultHandler (h_ : http.Handler) (stdout : W)
  : outcome (loggerHandler RW W) :=
  Handler h_ stdout CombineLoggerType None.

(** The observer of a request once the inner handler has returned. *)
Definition observed (rh : loggerHandler RW W) (res : RW)
  (req : http.Request) (clk : time.Clock) : responseLogger RW :=
  serve (h rh req)
    {| rw := res; start := fst (time.Now clk); status := 0; size := 0 |}.

Definition metricTags (rl : responseLogger RW) (req : http.Request)
  : list string :=
  [ "status:" +:+ strconv.Itoa (status rl);
    "method:" +:+ http.Method req ].

(** [loggerHandler.ServeHTTP]: the handler with the new states of its
    sink and metrics client, the new state of the response writer, and
    the clock.  It has no result of its own. *)
Definition ServeHTTP (rh : loggerHandler RW W) (res : RW)
  (req : http.Request) (clk : time.Clock)
  : loggerHandler RW W * RW * time.Clock :=
  let '(now, clk1) := time.Now clk in
  let rl0 := {| rw := res; start := now; status := 0; size := 0 |} in
  let rl := serve (h rh req) rl0 in
  let '(writer1, clk2) := logFn rh (writer rh) rl req clk1 in
  match stats rh with
  | Some c =>
      let tags := metricTags rl req in
      let rate := Float64.of_int 1 in
      let c1 := statsd.Incr c "http.response" tags rate in
      let c2 := statsd.Gauge c1 "http.size" (Float64.of_int (size rl)) tags rate in
      let '(now2, clk3) := time.Now clk2 in
      let c3 := statsd.Timing c2 "http.response" (time.Sub now2 (start rl)) tags rate in
      ({| h := h rh; formatType := formatType rh; writer := writer1;
          logFn := logFn rh; stats := Some c3 |}, rw rl, clk3)
  | None =>
      ({| h := h rh; formatType := formatType rh; writer := writer1;
          logFn := logFn rh; stats := None |}, rw rl, clk2)
  end.

End Logger.

(** ** Sequences of writes, quiet handlers *)

Section Writes.

Context {RW : Type} `{http.ResponseWriter RW}.

(** The observer after the chunks have been written through it, in
    order. *)
Fixpoint writeAll (rl : responseLogger RW) (chunks : list string)
  : responseLogger RW :=
  match chunks with
  | [] => rl
  | c :: rest => writeAll (fst (Write rl c)) rest
  end.

(** The counts the underlying writer itself reports when it is handed
    the chunks in order, and the state it ends in. *)
Fixpoint reported (w : RW) (chunks : list string) : list Z :=
  match chunks with
  | [] => []
  | c :: rest =>
      let '(w1, (n, _)) := http.rw_Write w c in n :: reported w1 rest
  end.

Fixpoint forwarded (w : RW) (chunks : list string) : RW :=
  match chunks with
  | [] => w
  | c :: rest => forwarded (fst (http.rw_Write w c)) rest
  end.

End Writes.

(** Sum of a list of counts, in unbounded arithmetic. *)
Definition total (ns : list Z) : Z := fold_right Z.add 0 ns.

(** A handler that never calls [Write] or [WriteHeader]. *)
Fixpoint quiet (p : http.Calls) : Prop :=
  match p with
  | http.Done => True
  | http.CallHeader k => forall hd, quiet (k hd)
  | http.CallFlush k => quiet k
  | http.CallWrite _ _ => False
  | http.CallWriteHeader _ _ => False
  end.

(** The five values of [Type] that have a format. *)
Definition definedTypes : list Z :=
  [CombineLoggerType; CommonLoggerType; DevLoggerType; ShortLoggerType;
   TinyLoggerType].

(** The sink after a request: it received [line] and a newline in one
    [Write], starting from the state [w]. *)
Definition emitted {RW W : Type} `{io.Writer W}
  (rh : loggerHandler RW W) (w : W) (line : string) : Prop :=
  writer rh = fst (io.Write w (line +:+ newline)).

(** Following the specification's words for the response-time field: the
    elapsed duration in milliseconds, three decimals, then [" ms"].  The
    duration is a count of nanoseconds, a millisecond is [1e6] of them. *)
Definition spec_responseTime (elapsed : time.Duration) : string :=
  fmt.Sprintf_3f_ms (PrimFloat.div (Float64.of_int elapsed) Float64.f1e6).

(** ** Concrete writers, sinks and requests *)

(** A response writer that keeps what it is sent, in the manner of
    [httptest.ResponseRecorder]. *)
Record Recorder : Type := {
  Code : Z;
  Body : string;
  HeaderMap : http.Header;
  Flushed : bool
}.

#[export] Instance Recorder_ResponseWriter : http.ResponseWriter Recorder := {|
  http.rw_Header := HeaderMap;
  http.rw_Write := fun r bytes =>
    ({| Code := if Code r =? 0 then 200 else Code r;
        Body := Body r +:+ bytes; HeaderMap := HeaderMap r;
        Flushed := Flushed r |}, (net.len bytes, None));
  http.rw_WriteHeader := fun r code =>
    {| Code := if Code r =? 0 then code else Code r; Body := Body r;
       HeaderMap := HeaderMap r; Flushed := Flushed r |};
  http.rw_Flusher := Some (fun r =>
    {| Code := Code r; Body := Body r; HeaderMap := HeaderMap r;
       Flushed := true |})
|}.

Definition newRecorder : Recorder :=
  {| Code := 0; Body := ""; HeaderMap := ∅; Flushed := false |}.

(** A response writer over a connection that takes four bytes a call: a
    longer chunk is a short write, reported with its error. *)
Record Trickle : Set := { taken : string }.

#[export] Instance Trickle_ResponseWriter : http.ResponseWriter Trickle := {|
  http.rw_Header := fun _ => ∅;
  http.rw_Write := fun r bytes =>
    if net.len bytes <=? 4 then
      ({| taken := taken r +:+ bytes |}, (net.len bytes, None))
    else
      ({| taken := taken r +:+ net.slice bytes 0 4 |},
       (4, Some "short write"));
  http.rw_WriteHeader := fun r _ => r;
  http.rw_Flusher := None
|}.

(** A sink that keeps every byte, as [bytes.Buffer] does. *)
Record Buffer : Set := { contents : string }.

#[export] Instance Buffer_Writer : io.Writer Buffer := {|
  io.Write := fun b p => ({| contents := contents b +:+ p |}, (net.len p, None))
|}.

(** A sink whose every write fails; it counts the attempts. *)
Record Broken : Set := { attempts : Z }.

#[export] Instance Broken_Writer : io.Writer Broken := {|
  io.Write := fun b _ =>
    ({| attempts := attempts b + 1 |}, (0, Some "write: broken pipe"))
|}.

(** The request [GET /ping HTTP/1.1] from [addr], without user-info and
    without headers. *)
Definition pingFrom (addr : string) : http.Request :=
  {| http.Method := "GET"; http.RequestURI := "/ping";
     http.Proto := "HTTP/1.1"; http.RemoteAddr := addr;
     http.URL_ := {| http.User := None |}; http.Headers := ∅ |}.

Definition ping : http.Request := pingFrom "127.0.0.1:5000".

(** A handler that answers with a twelve-byte body and no explicit
    status, one that answers nothing at all, and one that only flushes. *)
Definition pong : http.Handler :=
  fun _ => http.CallWrite "hello, world" (fun _ _ => http.Done).

Definition mute : http.Handler := fun _ => http.Done.

Definition flushOnly : http.Handler :=
  fun _ => http.CallHeader (fun _ => http.CallFlush http.Done).

(** A clock whose readings are [step] nanoseconds apart, starting at
    [t0]. *)
Definition ticking (t0 step : Z) : time.Clock :=
  fun n => {| time.wall := t0 + Z.of_nat n * step;
              time.mono := t0 + Z.of_nat n * step |}.

(** A stand-in for [Time.Format] that prints the wall-clock reading. *)
Definition stampWall (t : time.Time) (layout : string) : string :=
  strconv.Itoa (time.wall t).

(** ** The handler against the bare writer, handlers without a status,
       requests in sequence *)

Section Direct.

Context {RW : Type} `{http.ResponseWriter RW}.

(** The calls of a handler as they would reach the writer itself, each
    answered by that writer; [Flush] reaches it when it is an
    [http.Flusher]. *)
Fixpoint direct (p : http.Calls) (w : RW) : RW :=
  match p with
  | http.Done => w
  | http.CallHeader k => direct (k (http.rw_Header w)) w
  | http.CallWrite bytes k =>
      let '(w1, (n, err)) := http.rw_Write w bytes in direct (k n err) w1
  | http.CallWriteHeader code k => direct k (http.rw_WriteHeader w code)
  | http.CallFlush k =>
      direct k (match http.rw_Flusher with
                | Some flush => flush w
                | None => w
                end)
  end.

(** The counts the writer itself reports for the [Write] calls of the
    handler, in order. *)
Fixpoint counts (p : http.Calls) (w : RW) : list Z :=
  match p with
  | http.Done => []
  | http.CallHeader k => counts (k (http.rw_Header w)) w
  | http.CallWrite bytes k =>
      let '(w1, (n, err)) := http.rw_Write w bytes in n :: counts (k n err) w1
  | http.CallWriteHeader code k => counts k (http.rw_WriteHeader w code)
  | http.CallFlush k =>
      counts k (match http.rw_Flusher with
                | Some flush => flush w
                | None => w
                end)
  end.

(** The lengths of the chunks the handler offers in those calls. *)
Fixpoint offered (p : http.Calls) (w : RW) : list Z :=
  match p with
  | http.Done => []
  | http.CallHeader k => offered (k (http.rw_Header w)) w
  | http.CallWrite bytes k =>
      let '(w1, (n, err)) := http.rw_Write w bytes in
      net.len bytes :: offered (k n err) w1
  | http.CallWriteHeader code k => offered k (http.rw_WriteHeader w code)
  | http.CallFlush k =>
      offered k (match http.rw_Flusher with
                 | Some flush => flush w
                 | None => w
                 end)
  end.

(** The writer keeps the contract of [io.Writer]: a write reports a
    count between 0 and the length of the chunk. *)
Definition honest : Prop :=
  forall (w : RW) (bytes : string),
    0 <= fst (snd (http.rw_Write w bytes)) <= net.len bytes.

End Direct.

(** A handler that never calls [WriteHeader], whatever its writes
    return. *)
Fixpoint headerless (p : http.Calls) : Prop :=
  match p with
  | http.Done => True
  | http.CallHeader k => forall hd, headerless (k hd)
  | http.CallWrite _ k => forall n err, headerless (k n err)
  | http.CallWriteHeader _ _ => False
  | http.CallFlush k => headerless k
  end.

(** The formats whose line carries a response time. *)
Definition timed (t : Z) : bool :=
  (t =? DevLoggerType) || (t =? ShortLoggerType) || (t =? TinyLoggerType).

(** Requests served one after the other by the same middleware, each on
    its own response writer: the middleware, the writers as the requests
    left them, and the clock. *)
Fixpoint serveAll {RW W : Type} `{http.ResponseWriter RW}
  (rh : loggerHandler RW W) (conns : list (RW * http.Request))
  (clk : time.Clock) : loggerHandler RW W * list RW * time.Clock :=
  match conns with
  | [] => (rh, [], clk)
  | (res, req) :: rest =>
      let '(rh1, res1, clk1) := ServeHTTP rh res req clk in
      let '(rh2, done, clk2) := serveAll rh1 rest clk1 in
      (rh2, res1 :: done, clk2)
  end.

(** Byte [c] does not occur in [s]. *)
Definition absent (c : ascii) (s : string) : Prop := net.IndexByte s c < 0.

(** * Properties *)

(** ** Arithmetic of [int] *)

Lemma wrap_in_range (z : Z) : GoInt.in_range (GoInt.wrap z).
Proof.
  unfold GoInt.in_range, GoInt.wrap, GoInt.min_int, GoInt.max_int.
  pose proof (Z.mod_pos_bound (z + 2 ^ 63) (2 ^ 64) ltac:(lia)). lia.
Qed.

Lemma wrap_id (z : Z) : GoInt.in_range z -> GoInt.wrap z = z.
Proof.
  unfold GoInt.in_range, GoInt.wrap, GoInt.min_int, GoInt.max_int.
  intros Hz. rewrite Z.mod_small; lia.
Qed.

Lemma wrap_add_l (a b : Z) : GoInt.wrap (GoInt.wrap a + b) = GoInt.wrap (a + b).
Proof.
  unfold GoInt.wrap. f_equal.
  replace ((a + 2 ^ 63) mod 2 ^ 64 - 2 ^ 63 + b + 2 ^ 63)
    with ((a + 2 ^ 63) mod 2 ^ 64 + b) by lia.
  rewrite Zplus_mod_idemp_l. f_equal. lia.
Qed.

(** ** The observer *)

Section ObserverFacts.

Context {RW : Type} `{http.ResponseWriter RW}.

Lemma Write_size (rl : responseLogger RW) (bytes : string) :
  size (fst (Write rl bytes))
  = GoInt.add (size rl) (fst (snd (http.rw_Write (rw rl) bytes))).
Proof.
  unfold Write. destruct (http.rw_Write (rw rl) bytes) as [w1 [n err]].
  reflexivity.
Qed.

Lemma Write_rw (rl : responseLogger RW) (bytes : string) :
  rw (fst (Write rl bytes)) = fst (http.rw_Write (rw rl) bytes).
Proof.
  unfold Write. destruct (http.rw_Write (rw rl) bytes) as [w1 [n err]].
  reflexivity.
Qed.

Lemma Write_result (rl : responseLogger RW) (bytes : string) :
  snd (Write rl bytes) = snd (http.rw_Write (rw rl) bytes).
Proof.
  unfold Write. destruct (http.rw_Write (rw rl) bytes) as [w1 [n err]].
  reflexivity.
Qed.

Lemma Write_status (rl : responseLogger RW) (bytes : string) :
  status (fst (Write rl bytes))
  = if status rl =? 0 then http.StatusOK else status rl.
Proof.
  unfold Write. destruct (http.rw_Write (rw rl) bytes) as [w1 [n err]].
  reflexivity.
Qed.

Lemma Write_start (rl : responseLogger RW) (bytes : string) :
  start (fst (Write rl bytes)) = start rl.
Proof.
  unfold Write. destruct (http.rw_Write (rw rl) bytes) as [w1 [n err]].
  reflexivity.
Qed.

(** The running total along a sequence of writes, from any observer
    whose total is a valid [int]. *)
Lemma writeAll_size (chunks : list string) :
  forall rl : responseLogger RW,
    GoInt.in_range (size rl) ->
    size (writeAll rl chunks)
    = GoInt.wrap (size rl + total (reported (rw rl) chunks)).
Proof.
  induction chunks as [|c rest IH]; intros rl Hrange; simpl.
  - rewrite Z.add_0_r. symmetry. apply wrap_id. exact Hrange.
  - rewrite IH.
    + rewrite Write_size, Write_rw. unfold GoInt.add.
      destruct (http.rw_Write (rw rl) c) as [w1 [n err]]. simpl.
      rewrite wrap_add_l. f_equal. lia.
    + rewrite Write_size. apply wrap_in_range.
Qed.

(** The observer hands every chunk on unchanged: the writer it wraps
    ends where it would without the observer. *)
Lemma writeAll_rw (chunks : list string) :
  forall rl : responseLogger RW,
    rw (writeAll rl chunks) = forwarded (rw rl) chunks.
Proof.
  induction chunks as [|c rest IH]; intros rl; simpl.
  - reflexivity.
  - rewrite IH, Write_rw. reflexivity.
Qed.

(** A quiet handler leaves status, size and start time as they were. *)
Lemma serve_quiet (p : http.Calls) :
  forall rl : responseLogger RW,
    quiet p ->
    status (serve p rl) = status rl /\ size (serve p rl) = size rl
    /\ start (serve p rl) = start rl.
Proof.
  induction p as [|k IH|bytes k IH|code k IH|k IH]; intros rl Hq; simpl in *.
  - auto.
  - apply IH. apply Hq.
  - contradiction.
  - contradiction.
  - destruct (IH (Flush rl) Hq) as (Hs & Hz & Ht).
    rewrite Hs, Hz, Ht. unfold Flush.
    destruct http.rw_Flusher; auto.
Qed.

(** No call of the handler changes the start time. *)
Lemma serve_start (p : http.Calls) :
  forall rl : responseLogger RW, start (serve p rl) = start rl.
Proof.
  induction p as [|k IH|bytes k IH|code k IH|k IH]; intros rl; simpl.
  - reflexivity.
  - apply IH.
  - pose proof (Write_start rl bytes) as Hw.
    destruct (Write rl bytes) as [rl1 [n err]]. simpl in Hw.
    rewrite IH. exact Hw.
  - rewrite IH. reflexivity.
  - rewrite IH. unfold Flush. destruct http.rw_Flusher; reflexivity.
Qed.

End ObserverFacts.

(** C3: along every sequence of writes through a fresh observer, the
    recorded byte count is the sum, in [int] arithmetic, of the counts the
    underlying writer reported for those same chunks, and it is that sum
    itself whenever the sum is a valid [int]; the underlying writer is
    handed exactly the chunks; and each single write adds the count the
    underlying writer returned, whatever the length of the chunk. *)
Theorem size_is_sum_of_reported_counts :
  forall (RW : Type) (I : http.ResponseWriter RW)
         (res : RW) (t0 : time.Time) (chunks : list string),
    let rl :=
      writeAll {| rw := res; start := t0; status := 0; size := 0 |} chunks in
    size rl = GoInt.wrap (total (reported res chunks))
    /\ (GoInt.in_range (total (reported res chunks)) ->
        size rl = total (reported res chunks))
    /\ rw rl = forwarded res chunks
    /\ (forall (rl0 : responseLogger RW) (bytes : string),
          size (fst (Write rl0 bytes))
          = GoInt.add (size rl0) (fst (snd (http.rw_Write (rw rl0) bytes)))
          /\ snd (Write rl0 bytes) = snd (http.rw_Write (rw rl0) bytes)).
Proof.
  intros RW I res t0 chunks rl.
  assert (Hsum : size rl = GoInt.wrap (total (reported res chunks))).
  { subst rl. rewrite writeAll_size; simpl.
    - reflexivity.
    - unfold GoInt.in_range, GoInt.min_int, GoInt.max_int. lia. }
  split; [exact Hsum|]. split; [|split].
  - intros Hrange. rewrite Hsum. apply wrap_id. exact Hrange.
  - subst rl. rewrite writeAll_rw. reflexivity.
  - intros rl0 bytes. split; [apply Write_size | apply Write_result].
Qed.

(** A short write: ten bytes offered, four taken, four counted. *)
Example short_write_counts_four :
  let rl := {| rw := {| taken := "" |}; start := {| time.wall := 0; time.mono := 0 |};
               status := 0; size := 0 |} in
  snd (Write rl "0123456789") = (4, Some "short write")
  /\ size (fst (Write rl "0123456789")) = 4
  /\ size (writeAll rl ["0123456789"; "abc"; "ABCDEFG"]) = 11.
Proof. vm_compute. repeat split; reflexivity. Qed.

(** C4: a write through an observer that has no status yet records 200,
    whatever the underlying writer then answers, and hands the bytes on;
    after [WriteHeader(404)] a write leaves the recorded status at 404, as
    it does for every status other than 0. *)
Theorem Write_sets_default_status_only_when_unset :
  forall (RW : Type) (I : http.ResponseWriter RW),
    (forall (res : RW) (t0 : time.Time) (bytes : string),
        let rl := {| rw := res; start := t0; status := 0; size := 0 |} in
        status (fst (Write rl bytes)) = 200
        /\ rw (fst (Write rl bytes)) = fst (http.rw_Write res bytes))
    /\ (forall (rl : responseLogger RW) (bytes : string),
          status (fst (Write (WriteHeader rl 404) bytes)) = 404)
    /\ (forall (rl : responseLogger RW) (code : Z) (bytes : string),
          status (WriteHeader rl code) = code
          /\ (code <> 0 -> status (fst (Write (WriteHeader rl code) bytes)) = code)).
Proof.
  intros RW I. split; [|split].
  - intros res t0 bytes rl. split.
    + rewrite Write_status. reflexivity.
    + rewrite Write_rw. reflexivity.
  - intros rl bytes. rewrite Write_status. reflexivity.
  - intros rl code bytes. split; [reflexivity|].
    intros Hcode. rewrite Write_status. simpl.
    destruct (Z.eqb_spec code 0); [contradiction | reflexivity].
Qed.

(** ** The address split *)


(** ** Construction *)

Section HandlerFacts.

Context {RW W : Type} `{http.ResponseWriter RW} `{io.Writer W}.
Variable time_Format : time.Time -> string -> string.

Lemma logFnForType_defined (t : Z) :
  In t definedTypes ->
  exists f : logFn_t (RW := RW) (W := W),
    logFnForType time_Format t = Returns f.
Proof.
  unfold definedTypes. simpl.
  intros [<-|[<-|[<-|[<-|[<-|[]]]]]]; eexists; reflexivity.
Qed.

Lemma logFnForType_undefined (t : Z) :
  ~ In t definedTypes ->
  logFnForType (RW := RW) (W := W) time_Format t
  = Panics "Should never get here.".
Proof.
  unfold definedTypes, logFnForType. simpl. intros Hnot.
  repeat match goal with
         | |- context [?a =? ?b] =>
             destruct (Z.eqb_spec a b); [exfalso; apply Hnot; auto 10|]
         end.
  reflexivity.
Qed.

(** What a successful construction returns. *)
Lemma Handler_returns (h_ : http.Handler) (w : W) (t : Z)
  (stats_ : option statsd.Client) (rh : loggerHandler RW W) :
  Handler time_Format h_ w t stats_ = Returns rh ->
  exists f, logFnForType time_Format t = Returns f
            /\ rh = {| h := h_; formatType := 0; writer := w; logFn := f;
                       stats := stats_ |}.
Proof.
  unfold Handler. destruct (logFnForType time_Format t) as [f|msg].
  - intros Heq. inversion Heq. exists f. split; reflexivity.
  - discriminate.
Qed.

(** The three parts of the state a request leaves behind. *)
Lemma ServeHTTP_res (rh : loggerHandler RW W) res req clk :
  snd (fst (ServeHTTP rh res req clk)) = rw (observed rh res req clk).
Proof.
  unfold ServeHTTP, observed, time.Now. simpl.
  destruct (logFn rh _ _ _ _) as [w1 clk2].
  destruct (stats rh); reflexivity.
Qed.

Lemma ServeHTTP_writer (rh : loggerHandler RW W) res req clk :
  writer (fst (fst (ServeHTTP rh res req clk)))
  = fst (logFn rh (writer rh) (observed rh res req clk) req
           (snd (time.Now clk))).
Proof.
  unfold ServeHTTP, observed, time.Now. simpl.
  destruct (logFn rh _ _ _ _) as [w1 clk2].
  destruct (stats rh); reflexivity.
Qed.

Lemma ServeHTTP_stats (rh : loggerHandler RW W) res req clk :
  stats (fst (fst (ServeHTTP rh res req clk)))
  = match stats rh with
    | Some c =>
        let rl := observed rh res req clk in
        let clk2 := snd (logFn rh (writer rh) rl req (snd (time.Now clk))) in
        let tags := metricTags rl req in
        Some (c ++ [ statsd.MIncr "http.response" tags (Float64.of_int 1);
                     statsd.MGauge "http.size" (Float64.of_int (size rl))
                       tags (Float64.of_int 1);
                     statsd.MTiming "http.response"
                       (time.Sub (clk2 0%nat) (start rl)) tags
                       (Float64.of_int 1) ])%list
    | None => None
    end.
Proof.
  unfold ServeHTTP, observed, time.Now. simpl.
  destruct (logFn rh _ _ _ _) as [w1 clk2].
  destruct (stats rh) as [c|]; simpl; [|reflexivity].
  unfold statsd.Timing, statsd.Gauge, statsd.Incr.
  rewrite <- !app_assoc. reflexivity.
Qed.

(** The clock after the line is written: the formats with a response
    time read it once more, the two Apache formats do not. *)
Lemma logFn_clock (t : Z) (f : logFn_t) w (rl : responseLogger RW) req clk :
  logFnForType time_Format t = Returns f ->
  snd (f w rl req clk) = clk
  \/ snd (f w rl req clk) = snd (time.Now clk).
Proof.
  unfold logFnForType.
  repeat match goal with
         | |- context [?a =? ?b] => destruct (a =? b)
         end;
    intros Heq; inversion Heq; subst; auto.
Qed.

End HandlerFacts.

(** C2: for every selector outside the five defined values, [Handler]
    does not return a middleware: the construction panics, always with the
    same message, whatever the other arguments. *)
Theorem Handler_panics_on_undefined_type :
  forall (RW W : Type) (I : io.Writer W)
         (time_Format : time.Time -> string -> string)
         (h_ : http.Handler) (w : W) (stats_ : option statsd.Client) (t : Z),
    ~ In t definedTypes ->
    Handler (RW := RW) time_Format h_ w t stats_
    = Panics "Should never get here.".
Proof.
  intros RW W I tf h_ w stats_ t Hnot. unfold Handler.
  rewrite logFnForType_undefined by exact Hnot. reflexivity.
Qed.

(** The zero value of [Type] is one of the undefined selectors. *)
Lemma Handler_panics_on_zero :
  ~ In 0 definedTypes
  /\ Handler (RW := Recorder) stampWall pong {| contents := "" |} 0 None
     = Panics "Should never get here.".
Proof.
  assert (Hnot : ~ In 0 definedTypes).
  { unfold definedTypes. simpl. intros [?|[?|[?|[?|[?|[]]]]]]; discriminate. }
  split; [exact Hnot|].
  apply (Handler_panics_on_undefined_type Recorder Buffer _ stampWall pong
           {| contents := "" |} None 0 Hnot).
Defined.

(** ** The log lines *)

Lemma append_assoc (a b c : string) : (a +:+ b) +:+ c = a +:+ (b +:+ c).
Proof.
  induction a as [|x a IH].
  - reflexivity.
  - change (String x ((a +:+ b) +:+ c) = String x (a +:+ (b +:+ c))).
    f_equal. exact IH.
Qed.

Section LineFacts.

Context {RW W : Type} `{http.ResponseWriter RW} `{io.Writer W}.
Variable time_Format : time.Time -> string -> string.

(** The sink after a request served by a middleware of type [t] is the
    sink after the format function of [t] ran on the observer. *)
Lemma ServeHTTP_logs (h_ : http.Handler) (w : W) (t : Z)
  (stats_ : option statsd.Client) (rh : loggerHandler RW W)
  (f : logFn_t) res req clk :
  Handler time_Format h_ w t stats_ = Returns rh ->
  logFnForType time_Format t = Returns f ->
  writer (fst (fst (ServeHTTP rh res req clk)))
  = fst (f w (observed rh res req clk) req (snd (time.Now clk))).
Proof.
  intros Hrh Hf. apply Handler_returns in Hrh as (f' & Hf' & ->).
  rewrite Hf in Hf'. inversion Hf'. subst f'.
  rewrite ServeHTTP_writer. reflexivity.
Qed.

Lemma observed_start (rh : loggerHandler RW W) res req clk :
  start (observed rh res req clk) = clk 0%nat.
Proof. unfold observed. rewrite serve_start. reflexivity. Qed.

Lemma extractRemoteIP_ping (req : http.Request) :
  http.RemoteAddr req = "127.0.0.1:5000" -> extractRemoteIP req = "127.0.0.1".
Proof. unfold extractRemoteIP. intros ->. reflexivity. Qed.

Lemma extractUsername_none (req : http.Request) :
  http.User (http.URL_ req) = None -> extractUsername req = "-".
Proof. unfold extractUsername. intros ->. reflexivity. Qed.

End LineFacts.

(** C6: for [GET /ping HTTP/1.1] from [127.0.0.1:5000], with no
    user-info, empty referrer and user agent, final status 200 and final
    size 12, the Combined middleware hands its sink, in one write, the
    line [127.0.0.1 - - [<start time>] "GET /ping HTTP/1.1" 200 12 "" ""]
    and a newline. *)
Theorem combined_line_of_ping :
  forall (RW W : Type) (I : http.ResponseWriter RW) (J : io.Writer W)
         (time_Format : time.Time -> string -> string)
         (h_ : http.Handler) (w : W) (stats_ : option statsd.Client)
         (rh : loggerHandler RW W) (res : RW) (req : http.Request)
         (clk : time.Clock),
    Handler time_Format h_ w CombineLoggerType stats_ = Returns rh ->
    http.Method req = "GET" ->
    http.RequestURI req = "/ping" ->
    http.Proto req = "HTTP/1.1" ->
    http.RemoteAddr req = "127.0.0.1:5000" ->
    http.User (http.URL_ req) = None ->
    http.Referer req = "" ->
    http.UserAgent req = "" ->
    status (observed rh res req clk) = 200 ->
    size (observed rh res req clk) = 12 ->
    emitted (fst (fst (ServeHTTP rh res req clk))) w
      ("127.0.0.1 - - [" +:+ time_Format (clk 0%nat) timeFormat +:+ "] "
         +:+ dquote +:+ "GET /ping HTTP/1.1" +:+ dquote +:+ " 200 12 "
         +:+ dquote +:+ dquote +:+ " " +:+ dquote +:+ dquote).
Proof.
  intros RW W I J tf h_ w stats_ rh res req clk
    Hrh Hmethod Huri Hproto Haddr Huser Href Hua Hstatus Hsize.
  unfold emitted.
  rewrite (ServeHTTP_logs tf h_ w CombineLoggerType stats_ rh (logCombined tf))
    by (exact Hrh || reflexivity).
  unfold logCombined, fmt.Fprintln. cbn [fst].
  rewrite (extractRemoteIP_ping req Haddr), (extractUsername_none req Huser).
  rewrite Hmethod, Huri, Hproto, Href, Hua, Hstatus, Hsize, observed_start.
  f_equal. f_equal.
  change (strconv.Itoa 200) with "200". change (strconv.Itoa 12) with "12".
  cbn [strings.Join]. rewrite !append_assoc. reflexivity.
Qed.

Lemma combined_line_of_ping_witness :
  emitted
    (fst (fst (ServeHTTP
       {| h := pong; formatType := 0; writer := {| contents := "" |};
          logFn := logCombined stampWall; stats := None |}
       newRecorder ping (ticking 7 1000))))
    {| contents := "" |}
    ("127.0.0.1 - - [" +:+ stampWall (ticking 7 1000 0%nat) timeFormat +:+ "] "
       +:+ dquote +:+ "GET /ping HTTP/1.1" +:+ dquote +:+ " 200 12 "
       +:+ dquote +:+ dquote +:+ " " +:+ dquote +:+ dquote).
Proof.
  apply (combined_line_of_ping Recorder Buffer _ _ stampWall pong
           {| contents := "" |} None _ newRecorder ping (ticking 7 1000));
    reflexivity.
Defined.

(** C7: for [GET /ping] with final status 200 and final size 12, the Tiny
    middleware hands its sink, in one write, the line
    [GET /ping 200 12 - <elapsed> ms] and a newline: six fields with one
    space between them, [<elapsed>] a number with three decimals. *)
Theorem tiny_line_of_ping :
  forall (RW W : Type) (I : http.ResponseWriter RW) (J : io.Writer W)
         (time_Format : time.Time -> string -> string)
         (h_ : http.Handler) (w : W) (stats_ : option statsd.Client)
         (rh : loggerHandler RW W) (res : RW) (req : http.Request)
         (clk : time.Clock),
    Handler time_Format h_ w TinyLoggerType stats_ = Returns rh ->
    http.Method req = "GET" ->
    http.RequestURI req = "/ping" ->
    status (observed rh res req clk) = 200 ->
    size (observed rh res req clk) = 12 ->
    let elapsed :=
      Float64.format_f3
        (PrimFloat.div (time.Seconds (time.Sub (clk 1%nat) (clk 0%nat)))
           Float64.f1e6) in
    emitted (fst (fst (ServeHTTP rh res req clk))) w
      ("GET /ping 200 12 - " +:+ elapsed +:+ " ms")
    /\ "GET /ping 200 12 - " +:+ elapsed +:+ " ms"
       = strings.Join ["GET"; "/ping"; "200"; "12"; "-"; elapsed +:+ " ms"] " ".
Proof.
  intros RW W I J tf h_ w stats_ rh res req clk
    Hrh Hmethod Huri Hstatus Hsize elapsed.
  split; [|reflexivity].
  unfold emitted.
  rewrite (ServeHTTP_logs tf h_ w TinyLoggerType stats_ rh logTiny)
    by (exact Hrh || reflexivity).
  unfold logTiny, parseResponseTime, fmt.Sprintf_3f_ms, fmt.Fprintln, time.Now.
  cbn [fst snd].
  rewrite Hmethod, Huri, Hstatus, Hsize, observed_start.
  reflexivity.
Qed.

Lemma tiny_line_of_ping_witness :
  emitted
    (fst (fst (ServeHTTP
       {| h := pong; formatType := 0; writer := {| contents := "" |};
          logFn := logTiny; stats := None |}
       newRecorder ping (ticking 0 1500000))))
    {| contents := "" |}
    "GET /ping 200 12 - 0.000 ms".
Proof.
  apply (tiny_line_of_ping Recorder Buffer _ _ stampWall pong
           {| contents := "" |} None _ newRecorder ping (ticking 0 1500000));
    reflexivity.
Defined.

(** ** Unparsable peer addresses *)

Section AddressFacts.

Context {RW W : Type} `{http.ResponseWriter RW} `{io.Writer W}.
Variable time_Format : time.Time -> string -> string.



End AddressFacts.



(** The empty address, an address without a port and one with too many
    colons all fail to split; a Common line then starts with a space. *)
Example unparsable_addresses :
  net.SplitHostPort ""
  = ("", "", Some "address : missing port in address")
  /\ net.SplitHostPort "10.0.0.7"
     = ("", "", Some "address 10.0.0.7: missing port in address")
  /\ net.SplitHostPort "::1:80"
     = ("", "", Some "address ::1:80: too many colons in address")
  /\ contents (writer (fst (fst (ServeHTTP
       {| h := pong; formatType := 0; writer := {| contents := "" |};
          logFn := logCommon stampWall; stats := None |}
       newRecorder (pingFrom "10.0.0.7") (ticking 5 1000)))))
     = " - - [5] " +:+ dquote +:+ "GET /ping HTTP/1.1" +:+ dquote
         +:+ " 200 12" +:+ newline.
Proof. vm_compute. repeat split; reflexivity. Qed.

(** ** Metrics *)

(** C9: with a metrics client configured, a request adds exactly three
    measurements to those the client already holds, each once and in this
    order: the counter increment [http.response], the gauge [http.size]
    with the observer's byte count, and the timing [http.response] with
    the time elapsed since the start; all three carry the tags
    [status:<final status>] and [method:<request method>].  Nothing in
    this depends on the size of the response. *)
Theorem three_measurements_per_request :
  forall (RW W : Type) (I : http.ResponseWriter RW) (J : io.Writer W)
         (time_Format : time.Time -> string -> string)
         (h_ : http.Handler) (w : W) (t : Z) (c : statsd.Client)
         (rh : loggerHandler RW W) (res : RW) (req : http.Request)
         (clk : time.Clock),
    Handler time_Format h_ w t (Some c) = Returns rh ->
    let rl := observed rh res req clk in
    let tags := [ "status:" +:+ strconv.Itoa (status rl);
                  "method:" +:+ http.Method req ] in
    exists n : nat,
      (1 <= n <= 2)%nat
      /\ stats (fst (fst (ServeHTTP rh res req clk)))
         = Some (c ++ [ statsd.MIncr "http.response" tags (Float64.of_int 1);
                        statsd.MGauge "http.size" (Float64.of_int (size rl))
                          tags (Float64.of_int 1);
                        statsd.MTiming "http.response"
                          (time.Sub (clk n) (clk 0%nat)) tags
                          (Float64.of_int 1) ])%list.
Proof.
  intros RW W I J tf h_ w t c rh res req clk Hrh rl tags.
  pose proof (ServeHTTP_stats rh res req clk) as Hstats.
  pose proof (observed_start rh res req clk) as Hstart.
  destruct (Handler_returns tf h_ w t (Some c) rh Hrh) as (f & Hf & ->).
  cbn [stats logFn writer] in Hstats.
  fold rl in Hstats, Hstart. rewrite Hstart in Hstats.
  destruct (logFn_clock tf t f w rl req (snd (time.Now clk)) Hf) as [Hclk|Hclk];
    rewrite Hclk in Hstats; [exists 1%nat | exists 2%nat];
    (split; [lia | exact Hstats]).
Qed.

Lemma three_measurements_per_request_witness :
  exists n : nat,
    (1 <= n <= 2)%nat
    /\ stats (fst (fst (ServeHTTP
         {| h := mute; formatType := 0; writer := {| attempts := 0 |};
            logFn := logDev; stats := Some [] |}
         newRecorder ping (ticking 0 250))))
       = Some [ statsd.MIncr "http.response" ["status:0"; "method:GET"]
                  (Float64.of_int 1);
                statsd.MGauge "http.size" (Float64.of_int 0)
                  ["status:0"; "method:GET"] (Float64.of_int 1);
                statsd.MTiming "http.response"
                  (time.Sub (ticking 0 250 n) (ticking 0 250 0%nat))
                  ["status:0"; "method:GET"] (Float64.of_int 1) ].
Proof.
  exact (three_measurements_per_request Recorder Broken _ _ stampWall mute
           {| attempts := 0 |} DevLoggerType []
           {| h := mute; formatType := 0; writer := {| attempts := 0 |};
              logFn := logDev; stats := Some [] |}
           newRecorder ping (ticking 0 250) eq_refl).
Defined.

(** Without a client nothing is measured. *)
Lemma no_client_no_measurement :
  forall (RW W : Type) (I : http.ResponseWriter RW)
         (rh : loggerHandler RW W) (res : RW) (req : http.Request)
         (clk : time.Clock),
    stats rh = None -> stats (fst (fst (ServeHTTP rh res req clk))) = None.
Proof.
  intros RW W I rh res req clk Hnone.
  rewrite ServeHTTP_stats, Hnone. reflexivity.
Qed.

(** ** Handlers that write nothing *)

(** C10: when the inner handler returns without a call of [Write] or
    [WriteHeader], the observer ends with status 0 and size 0; each of
    the five lines prints ["0"] in its status and size fields, and the
    three measurements carry the tag [status:0], the gauge being 0. *)
Theorem quiet_handler_logs_status_zero :
  forall (RW W : Type) (I : http.ResponseWriter RW) (J : io.Writer W)
         (time_Format : time.Time -> string -> string)
         (h_ : http.Handler) (w : W) (t : Z) (stats_ : option statsd.Client)
         (rh : loggerHandler RW W) (res : RW) (req : http.Request)
         (clk : time.Clock),
    Handler time_Format h_ w t stats_ = Returns rh ->
    quiet (h_ req) ->
    let rl := observed rh res req clk in
    let rh' := fst (fst (ServeHTTP rh res req clk)) in
    let stamp := "[" +:+ time_Format (clk 0%nat) timeFormat +:+ "]" in
    let elapsed := fst (parseResponseTime (clk 0%nat) (snd (time.Now clk))) in
    status rl = 0 /\ size rl = 0
    /\ (t = CombineLoggerType ->
        emitted rh' w (strings.Join
          [ extractRemoteIP req; "-"; extractUsername req; stamp;
            dquote +:+ http.Method req; http.RequestURI req;
            http.Proto req +:+ dquote; "0"; "0";
            dquote +:+ http.Referer req +:+ dquote;
            dquote +:+ http.UserAgent req +:+ dquote ] " "))
    /\ (t = CommonLoggerType ->
        emitted rh' w (strings.Join
          [ extractRemoteIP req; "-"; extractUsername req; stamp;
            dquote +:+ http.Method req; http.RequestURI req;
            http.Proto req +:+ dquote; "0"; "0" ] " "))
    /\ (t = DevLoggerType ->
        emitted rh' w (strings.Join
          [ http.Method req; http.RequestURI req; "0"; elapsed; "-"; "0" ] " "))
    /\ (t = ShortLoggerType ->
        emitted rh' w (strings.Join
          [ extractRemoteIP req; extractUsername req; http.Method req;
            http.RequestURI req; http.Proto req; "0"; "0"; "-"; elapsed ] " "))
    /\ (t = TinyLoggerType ->
        emitted rh' w (strings.Join
          [ http.Method req; http.RequestURI req; "0"; "0"; "-"; elapsed ] " "))
    /\ (forall c : statsd.Client,
          stats_ = Some c ->
          exists d : time.Duration,
            let tags := [ "status:0"; "method:" +:+ http.Method req ] in
            stats rh'
            = Some (c ++ [ statsd.MIncr "http.response" tags (Float64.of_int 1);
                           statsd.MGauge "http.size" (Float64.of_int 0) tags
                             (Float64.of_int 1);
                           statsd.MTiming "http.response" d tags
                             (Float64.of_int 1) ])%list).
Proof.
  intros RW W I J tf h_ w t stats_ rh res req clk Hrh Hquiet rl rh' stamp elapsed.
  assert (Hzero : status rl = 0 /\ size rl = 0).
  { destruct (Handler_returns tf h_ w t stats_ rh Hrh) as (f & Hf & ->).
    subst rl. unfold observed. cbn [h].
    destruct (serve_quiet (h_ req)
                {| rw := res; start := fst (time.Now clk); status := 0; size := 0 |}
                Hquiet) as (Hs & Hz & _).
    split; assumption. }
  destruct Hzero as [Hs Hz].
  pose proof (observed_start rh res req clk) as Hstart. fold rl in Hstart.
  assert (Hline : forall f, logFnForType tf t = Returns f ->
            writer rh' = fst (f w rl req (snd (time.Now clk)))).
  { intros f Hf. subst rh' rl.
    apply (ServeHTTP_logs tf h_ w t stats_ rh f res req clk Hrh Hf). }
  split; [exact Hs|]. split; [exact Hz|].
  repeat split.
  - intros ->. unfold emitted. rewrite (Hline (logCombined tf) eq_refl).
    unfold logCombined, fmt.Fprintln. cbn [fst].
    rewrite Hs, Hz, Hstart. reflexivity.
  - intros ->. unfold emitted. rewrite (Hline (logCommon tf) eq_refl).
    unfold logCommon, fmt.Fprintln. cbn [fst].
    rewrite Hs, Hz, Hstart. reflexivity.
  - intros ->. unfold emitted. rewrite (Hline logDev eq_refl).
    unfold logDev, fmt.Fprintln. rewrite Hs, Hz, Hstart. subst elapsed.
    destruct (parseResponseTime (clk 0%nat) (snd (time.Now clk))) as [e clk1].
    reflexivity.
  - intros ->. unfold emitted. rewrite (Hline logShort eq_refl).
    unfold logShort, fmt.Fprintln. rewrite Hs, Hz, Hstart. subst elapsed.
    destruct (parseResponseTime (clk 0%nat) (snd (time.Now clk))) as [e clk1].
    reflexivity.
  - intros ->. unfold emitted. rewrite (Hline logTiny eq_refl).
    unfold logTiny, fmt.Fprintln. rewrite Hs, Hz, Hstart. subst elapsed.
    destruct (parseResponseTime (clk 0%nat) (snd (time.Now clk))) as [e clk1].
    reflexivity.
  - intros c ->.
    pose proof (ServeHTTP_stats rh res req clk) as Hstats.
    destruct (Handler_returns tf h_ w t (Some c) rh Hrh) as (f & Hf & Heq).
    assert (Hsome : stats rh = Some c) by (rewrite Heq; reflexivity).
    rewrite Hsome in Hstats. cbv zeta in Hstats.
    fold rl in Hstats. unfold metricTags in Hstats.
    rewrite Hs, Hz in Hstats.
    eexists. subst rh'. exact Hstats.
Qed.

Lemma quiet_handler_logs_status_zero_witness :
  contents (writer (fst (fst (ServeHTTP
     {| h := flushOnly; formatType := 0; writer := {| contents := "" |};
        logFn := logTiny; stats := Some [] |}
     newRecorder ping (ticking 0 1000)))))
  = "GET /ping 0 0 - 0.000 ms" +:+ newline.
Proof.
  pose proof (quiet_handler_logs_status_zero Recorder Buffer _ _ stampWall
                flushOnly {| contents := "" |} TinyLoggerType (Some []) _
                newRecorder ping (ticking 0 1000) eq_refl (fun _ => I))
    as (_ & _ & _ & _ & _ & _ & Htiny & _).
  rewrite (Htiny eq_refl). reflexivity.
Defined.

(** ** Failing sinks *)

Section SinkFacts.

Context {RW : Type} `{http.ResponseWriter RW}.
Variable time_Format : time.Time -> string -> string.

Lemma ServeHTTP_clock {W : Type} (rh : loggerHandler RW W) res req clk :
  snd (ServeHTTP rh res req clk)
  = let clk2 := snd (logFn rh (writer rh) (observed rh res req clk) req
                       (snd (time.Now clk))) in
    match stats rh with
    | Some _ => snd (time.Now clk2)
    | None => clk2
    end.
Proof.
  unfold ServeHTTP, observed, time.Now. simpl.
  destruct (logFn rh _ _ _ _) as [w1 clk2].
  destruct (stats rh); reflexivity.
Qed.

(** The clock a format leaves behind does not depend on the sink. *)
Lemma logFn_clock_any_sink {W1 W2 : Type} `{io.Writer W1} `{io.Writer W2}
  (t : Z) (f1 : logFn_t (W := W1)) (f2 : logFn_t (W := W2))
  (w1 : W1) (w2 : W2) (rl1 rl2 : responseLogger RW) req clk :
  logFnForType time_Format t = Returns f1 ->
  logFnForType time_Format t = Returns f2 ->
  snd (f1 w1 rl1 req clk) = snd (f2 w2 rl2 req clk).
Proof.
  unfold logFnForType.
  repeat match goal with
         | |- context [?a =? ?b] => destruct (a =? b)
         end;
    intros Heq1 Heq2; inversion Heq1; inversion Heq2; subst; reflexivity.
Qed.

End SinkFacts.

(** C5: [ServeHTTP] returns no error, and what it leaves behind apart
    from the sink does not depend on the sink: two middlewares built alike
    over any two sinks, whatever their writes return, leave the same
    response (the one the inner handler produced through the observer),
    the same measurements and the same clock. *)
Theorem sink_failure_is_not_propagated :
  forall (RW W1 W2 : Type) (I : http.ResponseWriter RW)
         (J1 : io.Writer W1) (J2 : io.Writer W2)
         (time_Format : time.Time -> string -> string)
         (h_ : http.Handler) (w1 : W1) (w2 : W2) (t : Z)
         (stats_ : option statsd.Client)
         (rh1 : loggerHandler RW W1) (rh2 : loggerHandler RW W2)
         (res : RW) (req : http.Request) (clk : time.Clock),
    Handler time_Format h_ w1 t stats_ = Returns rh1 ->
    Handler time_Format h_ w2 t stats_ = Returns rh2 ->
    let out1 := ServeHTTP rh1 res req clk in
    let out2 := ServeHTTP rh2 res req clk in
    snd (fst out1) = snd (fst out2)
    /\ snd (fst out1)
       = rw (serve (h_ req)
               {| rw := res; start := clk 0%nat; status := 0; size := 0 |})
    /\ stats (fst (fst out1)) = stats (fst (fst out2))
    /\ snd out1 = snd out2.
Proof.
  intros RW W1 W2 I J1 J2 tf h_ w1 w2 t stats_ rh1 rh2 res req clk
    Hrh1 Hrh2 out1 out2. subst out1 out2.
  destruct (Handler_returns tf h_ w1 t stats_ rh1 Hrh1) as (f1 & Hf1 & ->).
  destruct (Handler_returns tf h_ w2 t stats_ rh2 Hrh2) as (f2 & Hf2 & ->).
  rewrite !ServeHTTP_res, !ServeHTTP_stats, !ServeHTTP_clock.
  unfold observed. cbn [h stats logFn writer]. cbv zeta.
  set (rl := serve (h_ req) _).
  rewrite (logFn_clock_any_sink tf t f1 f2 w1 w2 rl rl req
             (snd (time.Now clk)) Hf1 Hf2).
  repeat split; reflexivity.
Qed.

Lemma sink_failure_is_not_propagated_witness :
  let out1 := ServeHTTP
    {| h := pong; formatType := 0; writer := {| contents := "" |};
       logFn := logShort; stats := Some [] |} newRecorder ping (ticking 0 9) in
  let out2 := ServeHTTP
    {| h := pong; formatType := 0; writer := {| attempts := 0 |};
       logFn := logShort; stats := Some [] |} newRecorder ping (ticking 0 9) in
  snd (fst out1) = snd (fst out2)
  /\ snd (fst out1)
     = rw (serve (pong ping)
             {| rw := newRecorder; start := ticking 0 9 0%nat; status := 0;
                size := 0 |})
  /\ stats (fst (fst out1)) = stats (fst (fst out2))
  /\ snd out1 = snd out2.
Proof.
  exact (sink_failure_is_not_propagated Recorder Buffer Broken _ _ _ stampWall
           pong {| contents := "" |} {| attempts := 0 |} ShortLoggerType
           (Some []) _ _ newRecorder ping (ticking 0 9) eq_refl eq_refl).
Defined.

(** The failing sink was tried once, its error went nowhere, and the
    response is complete. *)
Example broken_sink_response_intact :
  let out := ServeHTTP
    {| h := pong; formatType := 0; writer := {| attempts := 0 |};
       logFn := logCommon stampWall; stats := None |}
    newRecorder ping (ticking 0 9) in
  attempts (writer (fst (fst out))) = 1
  /\ Body (snd (fst out)) = "hello, world"
  /\ Code (snd (fst out)) = 200.
Proof. vm_compute. repeat split; reflexivity. Qed.

(** ** The response-time field *)

(** C1: for a request that took two seconds the response-time field
    reads ["0.000 ms"], where the elapsed time in milliseconds with three
    decimals is ["2000.000 ms"]: [parseResponseTime] divides the elapsed
    seconds by [1e6].  The Tiny line of such a request shows the field. *)
Theorem response_time_of_two_seconds :
  let start_ := {| time.wall := 0; time.mono := 0 |} in
  let clk := ticking 2000000000 0 in
  time.Sub (clk 0%nat) start_ = 2 * time.Second
  /\ fst (parseResponseTime start_ clk) = "0.000 ms"
  /\ spec_responseTime (time.Sub (clk 0%nat) start_) = "2000.000 ms"
  /\ fst (parseResponseTime start_ clk)
     <> spec_responseTime (time.Sub (clk 0%nat) start_)
  /\ contents (writer (fst (fst (ServeHTTP
       {| h := pong; formatType := 0; writer := {| contents := "" |};
          logFn := logTiny; stats := None |}
       newRecorder ping (ticking 0 2000000000)))))
     = "GET /ping 200 12 - 0.000 ms" +:+ newline.
Proof. vm_compute. repeat split; try reflexivity. discriminate. Qed.

(** The field stays at ["0.000 ms"] from a millisecond to a minute, and
    first moves at five hundred seconds. *)
Example response_time_samples :
  let field d :=
    fst (parseResponseTime {| time.wall := 0; time.mono := 0 |} (ticking d 0)) in
  field 1000000 = "0.000 ms"
  /\ field 1000000000 = "0.000 ms"
  /\ field 60000000000 = "0.000 ms"
  /\ field 499000000000 = "0.000 ms"
  /\ field 501000000000 = "0.001 ms"
  /\ spec_responseTime 1000000 = "1.000 ms"
  /\ spec_responseTime 1234567 = "1.235 ms".
Proof. vm_compute. repeat split; reflexivity. Qed.

(** * Further properties of the observer and the middleware *)

(** ** The observer under an arbitrary handler *)

Section ServeFacts.

Context {RW : Type} `{http.ResponseWriter RW}.

Lemma serve_direct (p : http.Calls) :
  forall rl : responseLogger RW, rw (serve p rl) = direct p (rw rl).
Proof.
  induction p as [|k IH|bytes k IH|code k IH|k IH]; intros rl; simpl.
  - reflexivity.
  - apply IH.
  - unfold Write.
    destruct (http.rw_Write (rw rl) bytes) as [w1 [n err]]. apply IH.
  - rewrite IH. reflexivity.
  - rewrite IH. unfold Flush. destruct http.rw_Flusher; reflexivity.
Qed.

Lemma serve_size (p : http.Calls) :
  forall rl : responseLogger RW,
    GoInt.in_range (size rl) ->
    size (serve p rl) = GoInt.wrap (size rl + total (counts p (rw rl))).
Proof.
  induction p as [|k IH|bytes k IH|code k IH|k IH]; intros rl Hrange; simpl.
  - rewrite Z.add_0_r. symmetry. apply wrap_id. exact Hrange.
  - apply IH. exact Hrange.
  - unfold Write.
    destruct (http.rw_Write (rw rl) bytes) as [w1 [n err]].
    rewrite IH; simpl.
    + unfold GoInt.add. rewrite wrap_add_l. f_equal. lia.
    + apply wrap_in_range.
  - rewrite IH by exact Hrange. reflexivity.
  - rewrite IH.
    + unfold Flush. destruct http.rw_Flusher; reflexivity.
    + unfold Flush. destruct http.rw_Flusher; exact Hrange.
Qed.

Lemma serve_headerless (p : http.Calls) :
  forall rl : responseLogger RW,
    headerless p ->
    status (serve p rl)
    = match counts p (rw rl) with
      | [] => status rl
      | _ :: _ => if status rl =? 0 then http.StatusOK else status rl
      end.
Proof.
  induction p as [|k IH|bytes k IH|code k IH|k IH]; intros rl Hp; simpl in *.
  - reflexivity.
  - apply IH. apply Hp.
  - unfold Write.
    destruct (http.rw_Write (rw rl) bytes) as [w1 [n err]].
    rewrite IH by apply Hp. simpl.
    destruct (counts (k n err) w1); [reflexivity|].
    destruct (status rl =? 0) eqn:Hzero; [reflexivity|].
    rewrite Hzero. reflexivity.
  - contradiction.
  - rewrite IH by exact Hp. unfold Flush.
    destruct http.rw_Flusher; reflexivity.
Qed.

End ServeFacts.

(** X1: the middleware leaves the response as the inner handler alone
    makes it: the writer it was given ends in the state in which the
    handler's own calls, answered by that writer, put it. *)
Theorem middleware_is_transparent :
  forall (RW W : Type) (I : http.ResponseWriter RW)
         (rh : loggerHandler RW W) (res : RW) (req : http.Request)
         (clk : time.Clock),
    snd (fst (ServeHTTP rh res req clk)) = direct (h rh req) res.
Proof.
  intros RW W I rh res req clk.
  rewrite ServeHTTP_res. unfold observed. rewrite serve_direct. reflexivity.
Qed.

(** X2: whatever the inner handler does, and however it reacts to what
    its writes return, the size the middleware logs is a valid [int] and
    is the sum, in [int] arithmetic, of the counts the writer reported for
    the handler's writes. *)
Theorem logged_size_is_sum_of_counts :
  forall (RW W : Type) (I : http.ResponseWriter RW)
         (rh : loggerHandler RW W) (res : RW) (req : http.Request)
         (clk : time.Clock),
    size (observed rh res req clk)
    = GoInt.wrap (total (counts (h rh req) res))
    /\ GoInt.in_range (size (observed rh res req clk)).
Proof.
  intros RW W I rh res req clk.
  assert (Hsize : size (observed rh res req clk)
                  = GoInt.wrap (total (counts (h rh req) res))).
  { unfold observed. rewrite serve_size; simpl.
    - reflexivity.
    - unfold GoInt.in_range, GoInt.min_int, GoInt.max_int. lia. }
  split; [exact Hsize|]. rewrite Hsize. apply wrap_in_range.
Qed.

(** X3: when the inner handler never calls [WriteHeader], the status
    the middleware logs is 0 if the handler wrote nothing and 200 as soon
    as it wrote once, whatever the writes returned. *)
Theorem status_without_WriteHeader :
  forall (RW W : Type) (I : http.ResponseWriter RW)
         (rh : loggerHandler RW W) (res : RW) (req : http.Request)
         (clk : time.Clock),
    headerless (h rh req) ->
    status (observed rh res req clk)
    = match counts (h rh req) res with
      | [] => 0
      | _ :: _ => 200
      end.
Proof.
  intros RW W I rh res req clk Hp.
  unfold observed. rewrite serve_headerless by exact Hp. reflexivity.
Qed.

Lemma status_without_WriteHeader_witness :
  status (observed
    {| h := pong; formatType := 0; writer := {| contents := "" |};
       logFn := logTiny; stats := None |}
    {| taken := "" |} ping (ticking 0 1)) = 200.
Proof.
  exact (status_without_WriteHeader Trickle Buffer _
           {| h := pong; formatType := 0; writer := {| contents := "" |};
              logFn := logTiny; stats := None |}
           {| taken := "" |} ping (ticking 0 1) (fun _ _ => I)).
Defined.

(** ** The user field *)

(** X4: the user field of a line is never empty: it is the user name of
    the URL when there is one and it is not empty, and ["-"] otherwise. *)
Theorem extractUsername_is_name_or_dash :
  forall req : http.Request,
    extractUsername req <> ""
    /\ (http.User (http.URL_ req) = None -> extractUsername req = "-")
    /\ (forall u : http.Userinfo,
          http.User (http.URL_ req) = Some u ->
          extractUsername req
          = if String.eqb (http.username u) "" then "-" else http.username u).
Proof.
  intros req. unfold extractUsername, http.Username.
  destruct (http.User (http.URL_ req)) as [u|].
  - split; [|split].
    + destruct (String.eqb_spec (http.username u) ""); [discriminate | assumption].
    + discriminate.
    + intros u' Hu. inversion Hu. subst u'. reflexivity.
  - split; [discriminate|]. split; [reflexivity | discriminate].
Qed.

(** ** Construction, once more *)

(** X5: for each of the five defined selectors [Handler] returns a
    middleware that holds the handler, the sink and the client it was
    given; its field [formatType] is 0 whatever the selector, since the
    constructor never sets it. *)
Theorem Handler_returns_for_defined_types :
  forall (RW W : Type) (J : io.Writer W)
         (time_Format : time.Time -> string -> string)
         (h_ : http.Handler) (w : W) (stats_ : option statsd.Client) (t : Z),
    In t definedTypes ->
    exists rh : loggerHandler RW W,
      Handler time_Format h_ w t stats_ = Returns rh
      /\ h rh = h_ /\ writer rh = w /\ stats rh = stats_
      /\ formatType rh = 0.
Proof.
  intros RW W J tf h_ w stats_ t Hin.
  destruct (logFnForType_defined (RW := RW) tf t Hin) as [f Hf].
  unfold Handler. rewrite Hf. eexists. repeat split; reflexivity.
Qed.

Lemma Handler_returns_for_defined_types_witness :
  exists rh : loggerHandler Recorder Buffer,
    Handler stampWall pong {| contents := "" |} TinyLoggerType None = Returns rh
    /\ h rh = pong /\ writer rh = {| contents := "" |} /\ stats rh = None
    /\ formatType rh = 0.
Proof.
  apply (Handler_returns_for_defined_types Recorder Buffer _ stampWall pong
           {| contents := "" |} None TinyLoggerType).
  unfold definedTypes. simpl. auto 10.
Defined.

Section FormatFacts.

Context {RW W : Type} `{http.ResponseWriter RW} `{io.Writer W}.
Variable time_Format : time.Time -> string -> string.

(** The clock a format leaves behind: the formats with a response time
    read it once. *)
Lemma logFn_clock_timed (t : Z) (f : logFn_t) (w : W)
  (rl : responseLogger RW) req clk :
  logFnForType time_Format t = Returns f ->
  snd (f w rl req clk) = if timed t then snd (time.Now clk) else clk.
Proof.
  unfold logFnForType, timed.
  destruct (Z.eqb_spec t CombineLoggerType) as [->|?];
    [|destruct (Z.eqb_spec t CommonLoggerType) as [->|?];
      [|destruct (Z.eqb_spec t DevLoggerType) as [->|?];
        [|destruct (Z.eqb_spec t ShortLoggerType) as [->|?];
          [|destruct (Z.eqb_spec t TinyLoggerType) as [->|?]]]]];
    intros Heq; inversion Heq; subst f; reflexivity.
Qed.

(** A request changes the sink and the client of the middleware and
    nothing else of it. *)
Lemma ServeHTTP_config (rh : loggerHandler RW W) res req clk :
  h (fst (fst (ServeHTTP rh res req clk))) = h rh
  /\ logFn (fst (fst (ServeHTTP rh res req clk))) = logFn rh
  /\ formatType (fst (fst (ServeHTTP rh res req clk))) = formatType rh.
Proof.
  unfold ServeHTTP, time.Now. simpl.
  destruct (logFn rh _ _ _ _) as [w1 clk2].
  destruct (stats rh); repeat split; reflexivity.
Qed.

End FormatFacts.

(** X6: [DefaultHandler] always returns a middleware; every request
    through it hands the sink the eleven fields of the Combined line, one
    space between them and a newline after them, with the status and the
    size of the observer in decimal, and measures nothing. *)
Theorem DefaultHandler_logs_combined :
  forall (RW W : Type) (I : http.ResponseWriter RW) (J : io.Writer W)
         (time_Format : time.Time -> string -> string)
         (h_ : http.Handler) (stdout : W),
    exists rh : loggerHandler RW W,
      DefaultHandler time_Format h_ stdout = Returns rh
      /\ forall (res : RW) (req : http.Request) (clk : time.Clock),
          let rl := observed rh res req clk in
          emitted (fst (fst (ServeHTTP rh res req clk))) stdout
            (strings.Join
               [ extractRemoteIP req; "-"; extractUsername req;
                 "[" +:+ time_Format (clk 0%nat) timeFormat +:+ "]";
                 dquote +:+ http.Method req; http.RequestURI req;
                 http.Proto req +:+ dquote;
                 strconv.Itoa (status rl); strconv.Itoa (size rl);
                 dquote +:+ http.Referer req +:+ dquote;
                 dquote +:+ http.UserAgent req +:+ dquote ] " ")
          /\ stats (fst (fst (ServeHTTP rh res req clk))) = None.
Proof.
  intros RW W I J tf h_ stdout. eexists. split; [reflexivity|].
  intros res req clk rl. split.
  - unfold emitted. rewrite ServeHTTP_writer. cbn [logFn writer].
    unfold logCombined, fmt.Fprintln. cbn [fst].
    rewrite observed_start. reflexivity.
  - rewrite ServeHTTP_stats. reflexivity.
Qed.

(** X7: for the same handler and request, the Common line is the nine
    fields listed below, and the Combined line is the Common line followed
    by the quoted referrer and the quoted user agent, each after one
    space. *)
Theorem combined_extends_common :
  forall (RW W : Type) (I : http.ResponseWriter RW) (J : io.Writer W)
         (time_Format : time.Time -> string -> string)
         (h_ : http.Handler) (w : W) (s1 s2 : option statsd.Client)
         (rh1 rh2 : loggerHandler RW W) (res : RW) (req : http.Request)
         (clk : time.Clock),
    Handler time_Format h_ w CommonLoggerType s1 = Returns rh1 ->
    Handler time_Format h_ w CombineLoggerType s2 = Returns rh2 ->
    let rl := observed rh1 res req clk in
    let common :=
      strings.Join
        [ extractRemoteIP req; "-"; extractUsername req;
          "[" +:+ time_Format (clk 0%nat) timeFormat +:+ "]";
          dquote +:+ http.Method req; http.RequestURI req;
          http.Proto req +:+ dquote;
          strconv.Itoa (status rl); strconv.Itoa (size rl) ] " " in
    emitted (fst (fst (ServeHTTP rh1 res req clk))) w common
    /\ emitted (fst (fst (ServeHTTP rh2 res req clk))) w
         (common +:+ " " +:+ dquote +:+ http.Referer req +:+ dquote
            +:+ " " +:+ dquote +:+ http.UserAgent req +:+ dquote).
Proof.
  intros RW W I J tf h_ w s1 s2 rh1 rh2 res req clk Hrh1 Hrh2 rl common.
  destruct (Handler_returns tf h_ w _ s1 rh1 Hrh1) as (f1 & Hf1 & ->).
  destruct (Handler_returns tf h_ w _ s2 rh2 Hrh2) as (f2 & Hf2 & ->).
  inversion Hf1. inversion Hf2. subst f1 f2. subst common rl.
  unfold emitted. rewrite !ServeHTTP_writer. cbn [logFn writer].
  unfold logCombined, logCommon, fmt.Fprintln, observed. cbn [fst h].
  rewrite !serve_start. cbn [start fst time.Now strings.Join].
  split; [reflexivity|].
  rewrite !append_assoc. reflexivity.
Qed.

Lemma combined_extends_common_witness :
  let common :=
    "127.0.0.1 - - [3] " +:+ dquote +:+ "GET /ping HTTP/1.1" +:+ dquote
      +:+ " 200 12" in
  emitted
    (fst (fst (ServeHTTP
       {| h := pong; formatType := 0; writer := {| contents := "" |};
          logFn := logCommon stampWall; stats := None |}
       newRecorder ping (ticking 3 1))))
    {| contents := "" |} common
  /\ emitted
       (fst (fst (ServeHTTP
          {| h := pong; formatType := 0; writer := {| contents := "" |};
             logFn := logCombined stampWall; stats := None |}
          newRecorder ping (ticking 3 1))))
       {| contents := "" |}
       (common +:+ " " +:+ dquote +:+ dquote +:+ " " +:+ dquote +:+ dquote).
Proof.
  exact (combined_extends_common Recorder Buffer _ _ stampWall pong
           {| contents := "" |} None None _ _ newRecorder ping
           (ticking 3 1) eq_refl eq_refl).
Defined.

(** ** The lines with a response time *)

(** X8: the Dev line of any request is method, URI, status, response
    time, ["-"] and size, in that order: the size comes last and the
    response time fourth.  The response time is computed from the second
    reading of the clock and the start time. *)
Theorem dev_line_layout :
  forall (RW W : Type) (I : http.ResponseWriter RW) (J : io.Writer W)
         (time_Format : time.Time -> string -> string)
         (h_ : http.Handler) (w : W) (stats_ : option statsd.Client)
         (rh : loggerHandler RW W) (res : RW) (req : http.Request)
         (clk : time.Clock),
    Handler time_Format h_ w DevLoggerType stats_ = Returns rh ->
    let rl := observed rh res req clk in
    let elapsed :=
      Float64.format_f3
        (PrimFloat.div (time.Seconds (time.Sub (clk 1%nat) (clk 0%nat)))
           Float64.f1e6) +:+ " ms" in
    emitted (fst (fst (ServeHTTP rh res req clk))) w
      (strings.Join
         [ http.Method req; http.RequestURI req; strconv.Itoa (status rl);
           elapsed; "-"; strconv.Itoa (size rl) ] " ").
Proof.
  intros RW W I J tf h_ w stats_ rh res req clk Hrh rl elapsed.
  unfold emitted.
  rewrite (ServeHTTP_logs tf h_ w DevLoggerType stats_ rh logDev res req clk
             Hrh eq_refl).
  unfold logDev, parseResponseTime, fmt.Sprintf_3f_ms, fmt.Fprintln, time.Now.
  cbn [fst snd]. rewrite observed_start. reflexivity.
Qed.

Lemma dev_line_layout_witness :
  emitted
    (fst (fst (ServeHTTP
       {| h := pong; formatType := 0; writer := {| contents := "" |};
          logFn := logDev; stats := None |}
       newRecorder ping (ticking 0 1500000))))
    {| contents := "" |}
    "GET /ping 200 0.000 ms - 12".
Proof.
  exact (dev_line_layout Recorder Buffer _ _ stampWall pong
           {| contents := "" |} None _ newRecorder ping (ticking 0 1500000)
           eq_refl).
Defined.

(** X9: the Short line of any request is remote IP, user, method, URI,
    protocol, status, size, ["-"] and response time, in that order and
    without quotes or brackets of its own. *)
Theorem short_line_layout :
  forall (RW W : Type) (I : http.ResponseWriter RW) (J : io.Writer W)
         (time_Format : time.Time -> string -> string)
         (h_ : http.Handler) (w : W) (stats_ : option statsd.Client)
         (rh : loggerHandler RW W) (res : RW) (req : http.Request)
         (clk : time.Clock),
    Handler time_Format h_ w ShortLoggerType stats_ = Returns rh ->
    let rl := observed rh res req clk in
    let elapsed :=
      Float64.format_f3
        (PrimFloat.div (time.Seconds (time.Sub (clk 1%nat) (clk 0%nat)))
           Float64.f1e6) +:+ " ms" in
    emitted (fst (fst (ServeHTTP rh res req clk))) w
      (strings.Join
         [ extractRemoteIP req; extractUsername req; http.Method req;
           http.RequestURI req; http.Proto req; strconv.Itoa (status rl);
           strconv.Itoa (size rl); "-"; elapsed ] " ").
Proof.
  intros RW W I J tf h_ w stats_ rh res req clk Hrh rl elapsed.
  unfold emitted.
  rewrite (ServeHTTP_logs tf h_ w ShortLoggerType stats_ rh logShort res req
             clk Hrh eq_refl).
  unfold logShort, parseResponseTime, fmt.Sprintf_3f_ms, fmt.Fprintln, time.Now.
  cbn [fst snd]. rewrite observed_start. reflexivity.
Qed.

Lemma short_line_layout_witness :
  emitted
    (fst (fst (ServeHTTP
       {| h := pong; formatType := 0; writer := {| contents := "" |};
          logFn := logShort; stats := None |}
       newRecorder ping (ticking 0 1500000))))
    {| contents := "" |}
    "127.0.0.1 - GET /ping HTTP/1.1 200 12 - 0.000 ms".
Proof.
  exact (short_line_layout Recorder Buffer _ _ stampWall pong
           {| contents := "" |} None _ newRecorder ping (ticking 0 1500000)
           eq_refl).
Defined.

(** ** Clock readings of a request *)

(** X10: a request reads the clock once at its start, once more for the
    line when the format has a response time, and once more for the
    timing when a client is configured; so the timing measurement is
    taken after the line is written and, in the formats with a response
    time, from a later reading than the response time of the line. *)
Theorem clock_readings_of_a_request :
  forall (RW W : Type) (I : http.ResponseWriter RW) (J : io.Writer W)
         (time_Format : time.Time -> string -> string)
         (h_ : http.Handler) (w : W) (t : Z) (stats_ : option statsd.Client)
         (rh : loggerHandler RW W) (res : RW) (req : http.Request)
         (clk : time.Clock),
    Handler time_Format h_ w t stats_ = Returns rh ->
    let n := if timed t then 2%nat else 1%nat in
    let rl := observed rh res req clk in
    match stats_ with
    | Some c =>
        stats (fst (fst (ServeHTTP rh res req clk)))
        = Some (c ++ [ statsd.MIncr "http.response" (metricTags rl req)
                         (Float64.of_int 1);
                       statsd.MGauge "http.size" (Float64.of_int (size rl))
                         (metricTags rl req) (Float64.of_int 1);
                       statsd.MTiming "http.response"
                         (time.Sub (clk n) (clk 0%nat)) (metricTags rl req)
                         (Float64.of_int 1) ])%list
        /\ forall m : nat,
            snd (ServeHTTP rh res req clk) m = clk (S n + m)%nat
    | None =>
        stats (fst (fst (ServeHTTP rh res req clk))) = None
        /\ forall m : nat, snd (ServeHTTP rh res req clk) m = clk (n + m)%nat
    end.
Proof.
  intros RW W I J tf h_ w t stats_ rh res req clk Hrh n rl.
  pose proof (ServeHTTP_stats rh res req clk) as Hstats.
  pose proof (ServeHTTP_clock rh res req clk) as Hclock.
  pose proof (observed_start rh res req clk) as Hstart.
  destruct (Handler_returns tf h_ w t stats_ rh Hrh) as (f & Hf & ->).
  cbn [stats logFn writer] in Hstats, Hclock. cbv zeta in Hstats, Hclock.
  fold rl in Hstats, Hclock, Hstart.
  rewrite (logFn_clock_timed tf t f w rl req (snd (time.Now clk)) Hf)
    in Hstats, Hclock.
  rewrite Hstart in Hstats. subst n.
  destruct stats_ as [c|]; destruct (timed t);
    (split; [exact Hstats | intros m; rewrite Hclock; reflexivity]).
Qed.

Lemma clock_readings_of_a_request_witness :
  stats (fst (fst (ServeHTTP
    {| h := mute; formatType := 0; writer := {| contents := "" |};
       logFn := logTiny; stats := Some [] |}
    newRecorder ping (ticking 0 7))))
  = Some [ statsd.MIncr "http.response" ["status:0"; "method:GET"]
             (Float64.of_int 1);
           statsd.MGauge "http.size" (Float64.of_int 0)
             ["status:0"; "method:GET"] (Float64.of_int 1);
           statsd.MTiming "http.response" 14 ["status:0"; "method:GET"]
             (Float64.of_int 1) ]
  /\ forall m : nat,
      snd (ServeHTTP
        {| h := mute; formatType := 0; writer := {| contents := "" |};
           logFn := logTiny; stats := Some [] |}
        newRecorder ping (ticking 0 7)) m
      = ticking 0 7 (3 + m)%nat.
Proof.
  exact (clock_readings_of_a_request Recorder Buffer _ _ stampWall mute
           {| contents := "" |} TinyLoggerType (Some []) _ newRecorder ping
           (ticking 0 7) eq_refl).
Defined.

(** ** Requests in sequence *)

Section SequenceFacts.

Context {RW W : Type} `{http.ResponseWriter RW}.

Lemma serveAll_facts (conns : list (RW * http.Request)) :
  forall (rh : loggerHandler RW W) (clk : time.Clock) (c : statsd.Client),
    stats rh = Some c ->
    exists added : list statsd.Measurement,
      stats (fst (fst (serveAll rh conns clk))) = Some (c ++ added)%list
      /\ List.length added = (3 * List.length conns)%nat
      /\ List.length (snd (fst (serveAll rh conns clk))) = List.length conns
      /\ h (fst (fst (serveAll rh conns clk))) = h rh
      /\ logFn (fst (fst (serveAll rh conns clk))) = logFn rh.
Proof.
  induction conns as [|[res req] rest IH]; intros rh clk c Hc.
  - exists []. simpl. rewrite app_nil_r. repeat split; try reflexivity.
    exact Hc.
  - simpl.
    pose proof (ServeHTTP_stats rh res req clk) as Hstats.
    pose proof (ServeHTTP_config rh res req clk) as (Hh & Hlog & _).
    rewrite Hc in Hstats. cbv zeta in Hstats.
    destruct (ServeHTTP rh res req clk) as [[rh1 res1] clk1].
    cbn [fst snd] in Hstats, Hh, Hlog.
    destruct (IH rh1 clk1 _ Hstats) as (added & Hs & Hlen & Hres & Hh2 & Hlog2).
    destruct (serveAll rh1 rest clk1) as [[rh2 done] clk2].
    cbn [fst snd] in *.
    eexists. split; [|split; [|split; [|split]]].
    + rewrite Hs, <- app_assoc. reflexivity.
    + rewrite length_app, Hlen. simpl. lia.
    + simpl. rewrite Hres. reflexivity.
    + rewrite Hh2. exact Hh.
    + rewrite Hlog2. exact Hlog.
Qed.

End SequenceFacts.

(** X11: a middleware with a client that serves requests one after the
    other keeps its handler and its format, returns one response per
    request, and ends with the measurements it had followed by exactly
    three for each request served. *)
Theorem three_measurements_for_each_of_many :
  forall (RW W : Type) (I : http.ResponseWriter RW)
         (rh : loggerHandler RW W) (conns : list (RW * http.Request))
         (clk : time.Clock) (c : statsd.Client),
    stats rh = Some c ->
    exists added : list statsd.Measurement,
      stats (fst (fst (serveAll rh conns clk))) = Some (c ++ added)%list
      /\ List.length added = (3 * List.length conns)%nat
      /\ List.length (snd (fst (serveAll rh conns clk))) = List.length conns
      /\ h (fst (fst (serveAll rh conns clk))) = h rh
      /\ logFn (fst (fst (serveAll rh conns clk))) = logFn rh.
Proof.
  intros RW W I rh conns clk c Hc. apply serveAll_facts. exact Hc.
Qed.

Lemma three_measurements_for_each_of_many_witness :
  exists added : list statsd.Measurement,
    let rh := {| h := pong; formatType := 0; writer := {| contents := "" |};
                 logFn := logTiny; stats := Some [] |} in
    let conns := [(newRecorder, ping); (newRecorder, pingFrom "")] in
    stats (fst (fst (serveAll rh conns (ticking 0 5)))) = Some ([] ++ added)%list
    /\ List.length added = (3 * List.length conns)%nat
    /\ List.length (snd (fst (serveAll rh conns (ticking 0 5))))
       = List.length conns
    /\ h (fst (fst (serveAll rh conns (ticking 0 5)))) = h rh
    /\ logFn (fst (fst (serveAll rh conns (ticking 0 5)))) = logFn rh.
Proof.
  exact (three_measurements_for_each_of_many Recorder Buffer _
           {| h := pong; formatType := 0; writer := {| contents := "" |};
              logFn := logTiny; stats := Some [] |}
           [(newRecorder, ping); (newRecorder, pingFrom "")] (ticking 0 5) []
           eq_refl).
Defined.

(** ** Splitting well-formed peer addresses *)

Lemma len_nil : net.len "" = 0.
Proof. reflexivity. Qed.

Lemma len_cons (x : ascii) (s : string) : net.len (String x s) = 1 + net.len s.
Proof. unfold net.len. cbn [String.length]. lia. Qed.

Lemma len_nonneg (s : string) : 0 <= net.len s.
Proof. unfold net.len. lia. Qed.

Lemma app_cons (x : ascii) (a b : string) :
  String x a +:+ b = String x (a +:+ b).
Proof. reflexivity. Qed.

Lemma app_nil_l (b : string) : "" +:+ b = b.
Proof. reflexivity. Qed.

Lemma len_app (a b : string) : net.len (a +:+ b) = net.len a + net.len b.
Proof.
  induction a as [|x a IH].
  - rewrite app_nil_l, len_nil. lia.
  - rewrite app_cons, !len_cons, IH. lia.
Qed.

Lemma IndexByte_bounds (s : string) (c : ascii) :
  net.IndexByte s c = -1 \/ 0 <= net.IndexByte s c < net.len s.
Proof.
  induction s as [|x s IH]; cbn [net.IndexByte].
  - left. reflexivity.
  - rewrite len_cons. destruct (Ascii.eqb x c).
    + right. pose proof (len_nonneg s). lia.
    + destruct (Z.ltb_spec (net.IndexByte s c) 0); [left; reflexivity|].
      right. lia.
Qed.

Lemma absent_nil (c : ascii) : absent c "".
Proof. unfold absent. cbn. lia. Qed.

Lemma absent_cons (c x : ascii) (s : string) :
  absent c (String x s) <-> x <> c /\ absent c s.
Proof.
  unfold absent. cbn [net.IndexByte].
  destruct (Ascii.eqb_spec x c) as [->|Hne].
  - split; [lia | intros [Hx _]; contradiction].
  - destruct (Z.ltb_spec (net.IndexByte s c) 0).
    + split; [intros _; split; [exact Hne | assumption] | lia].
    + split; [lia | intros [_ Hs]; lia].
Qed.

Lemma absent_app (c : ascii) (a b : string) :
  absent c a -> absent c b -> absent c (a +:+ b).
Proof.
  induction a as [|x a IH]; intros Ha Hb.
  - exact Hb.
  - rewrite app_cons. apply absent_cons. apply absent_cons in Ha as [Hx Ha].
    split; [exact Hx | apply IH; assumption].
Qed.

(** The first occurrence after a prefix without the byte. *)
Lemma IndexByte_skip (c : ascii) (a b : string) :
  absent c a -> net.IndexByte (a +:+ String c b) c = net.len a.
Proof.
  induction a as [|x a IH]; intros Ha.
  - rewrite app_nil_l. cbn [net.IndexByte]. rewrite Ascii.eqb_refl. reflexivity.
  - apply absent_cons in Ha as [Hx Ha].
    rewrite app_cons, len_cons. cbn [net.IndexByte].
    destruct (Ascii.eqb_spec x c) as [->|_]; [contradiction|].
    rewrite (IH Ha). pose proof (len_nonneg a).
    destruct (Z.ltb_spec (net.len a) 0); lia.
Qed.

Lemma LastIndexByte_absent (c : ascii) (s : string) :
  absent c s -> net.LastIndexByte s c = -1.
Proof.
  induction s as [|x s IH]; intros Hs.
  - reflexivity.
  - apply absent_cons in Hs as [Hx Hs]. cbn [net.LastIndexByte].
    rewrite (IH Hs). cbn.
    destruct (Ascii.eqb_spec x c) as [->|_]; [contradiction | reflexivity].
Qed.

(** The last occurrence before a suffix without the byte. *)
Lemma LastIndexByte_skip (c : ascii) (a b : string) :
  absent c b -> net.LastIndexByte (a +:+ String c b) c = net.len a.
Proof.
  intros Hb. induction a as [|x a IH].
  - rewrite app_nil_l. cbn [net.LastIndexByte].
    rewrite (LastIndexByte_absent c b Hb). cbn.
    rewrite Ascii.eqb_refl. reflexivity.
  - rewrite app_cons, len_cons. cbn [net.LastIndexByte]. rewrite IH.
    pose proof (len_nonneg a).
    destruct (Z.leb_spec 0 (net.len a)); lia.
Qed.

Lemma substring_skip (a s : string) (n m : nat) :
  String.substring (String.length a + n) m (a +:+ s) = String.substring n m s.
Proof.
  induction a as [|x a IH].
  - reflexivity.
  - rewrite app_cons. cbn [String.length Nat.add String.substring]. exact IH.
Qed.

Lemma substring_prefix (b c : string) :
  String.substring 0 (String.length b) (b +:+ c) = b.
Proof.
  induction b as [|x b IH].
  - rewrite app_nil_l. destruct c; reflexivity.
  - rewrite app_cons. cbn [String.length String.substring]. f_equal. exact IH.
Qed.

(** The slice that cuts the middle part out of three. *)
Lemma slice_mid (a b c : string) (i j : Z) :
  i = net.len a -> j = net.len a + net.len b ->
  net.slice (a +:+ b +:+ c) i j = b.
Proof.
  intros -> ->. unfold net.slice, net.len.
  replace (Z.of_nat (String.length a) + Z.of_nat (String.length b)
           - Z.of_nat (String.length a))
    with (Z.of_nat (String.length b)) by lia.
  rewrite !Nat2Z.id.
  replace (String.length a) with (String.length a + 0)%nat by lia.
  rewrite substring_skip. apply substring_prefix.
Qed.

Lemma app_nil_r (s : string) : s +:+ "" = s.
Proof.
  induction s as [|x s IH]; [reflexivity|].
  rewrite app_cons, IH. reflexivity.
Qed.

Lemma byte_is_head (x c : ascii) (s : string) :
  net.byte_is (String x s) 0 c = Ascii.eqb x c.
Proof. reflexivity. Qed.

(** X12: a peer address made of a host without colon or bracket, a
    colon, and a port without colon or bracket splits into that host and
    that port without error; the remote IP of the request is the host. *)
Theorem SplitHostPort_of_host_and_port :
  forall (host port : string) (req : http.Request),
    absent ":" host -> absent "[" host -> absent "]" host ->
    absent ":" port -> absent "[" port -> absent "]" port ->
    http.RemoteAddr req = host +:+ ":" +:+ port ->
    net.SplitHostPort (host +:+ ":" +:+ port) = (host, port, None)
    /\ extractRemoteIP req = host.
Proof.
  intros host port req Hch Hoh Hsh Hcp Hop Hsp Haddr.
  change (host +:+ ":" +:+ port) with (host +:+ String ":" port) in *.
  assert (Hsplit : net.SplitHostPort (host +:+ String ":" port)
                   = (host, port, None)).
  { unfold net.SplitHostPort.
    rewrite (LastIndexByte_skip ":" host port Hcp).
    pose proof (len_nonneg host) as Hlen.
    destruct (Z.ltb_spec (net.len host) 0) as [?|_]; [lia|].
    assert (Hfirst : net.byte_is (host +:+ String ":" port) 0 "[" = false).
    { destruct host as [|x host].
      - reflexivity.
      - rewrite app_cons, byte_is_head. apply absent_cons in Hoh as [Hx _].
        destruct (Ascii.eqb_spec x "["); [contradiction | reflexivity]. }
    rewrite Hfirst.
    assert (Hhost : net.slice (host +:+ String ":" port) 0 (net.len host)
                    = host).
    { apply (slice_mid "" host (String ":" port)); rewrite ?len_nil; lia. }
    rewrite Hhost.
    unfold absent in Hch.
    destruct (Z.leb_spec 0 (net.IndexByte host ":")) as [?|_]; [lia|].
    unfold net.splitTail.
    assert (Hall : net.slice (host +:+ String ":" port) 0
                     (net.len (host +:+ String ":" port))
                   = host +:+ String ":" port).
    { pose proof (slice_mid "" (host +:+ String ":" port) "" 0
                    (net.len (host +:+ String ":" port)) eq_refl eq_refl)
        as Hmid.
      rewrite app_nil_r in Hmid. exact Hmid. }
    rewrite Hall.
    assert (Hopen : absent "[" (host +:+ String ":" port)).
    { apply absent_app; [exact Hoh|]. apply absent_cons.
      split; [discriminate | exact Hop]. }
    assert (Hshut : absent "]" (host +:+ String ":" port)).
    { apply absent_app; [exact Hsh|]. apply absent_cons.
      split; [discriminate | exact Hsp]. }
    unfold absent in Hopen, Hshut.
    destruct (Z.leb_spec 0 (net.IndexByte (host +:+ String ":" port) "["))
      as [?|_]; [lia|].
    destruct (Z.leb_spec 0 (net.IndexByte (host +:+ String ":" port) "]"))
      as [?|_]; [lia|].
    f_equal. f_equal.
    assert (Hparts : host +:+ String ":" port = (host +:+ ":") +:+ port +:+ "").
    { rewrite app_nil_r, append_assoc. reflexivity. }
    rewrite Hparts.
    apply (slice_mid (host +:+ ":") port "").
    - rewrite len_app. reflexivity.
    - rewrite app_nil_r, !len_app. reflexivity. }
  split; [exact Hsplit|].
  unfold extractRemoteIP. rewrite Haddr, Hsplit. reflexivity.
Qed.

Lemma SplitHostPort_of_host_and_port_witness :
  net.SplitHostPort ("10.1.2.3" +:+ ":" +:+ "8080") = ("10.1.2.3", "8080", None)
  /\ extractRemoteIP (pingFrom "10.1.2.3:8080") = "10.1.2.3".
Proof.
  apply (SplitHostPort_of_host_and_port "10.1.2.3" "8080"
           (pingFrom "10.1.2.3:8080")); reflexivity.
Defined.

Lemma slice_tail (a b : string) (i : Z) :
  i = net.len a -> net.slice (a +:+ b) i (net.len (a +:+ b)) = b.
Proof.
  intros ->.
  pose proof (slice_mid a b "" (net.len a) (net.len (a +:+ b)) eq_refl
                (len_app a b)) as Hmid.
  rewrite app_nil_r in Hmid. exact Hmid.
Qed.

(** X13: a peer address made of a bracketed host, a colon and a port,
    as an IPv6 peer has it, splits into the host without its brackets and
    the port, whatever colons the host holds; the remote IP of the request
    is the host without brackets. *)
Theorem SplitHostPort_of_bracketed_host :
  forall (host port : string) (req : http.Request),
    absent "[" host -> absent "]" host ->
    absent ":" port -> absent "[" port -> absent "]" port ->
    http.RemoteAddr req = "[" +:+ host +:+ "]:" +:+ port ->
    net.SplitHostPort ("[" +:+ host +:+ "]:" +:+ port) = (host, port, None)
    /\ extractRemoteIP req = host.
Proof.
  intros host port req Hoh Hsh Hcp Hop Hsp Haddr.
  set (hp := "[" +:+ host +:+ "]:" +:+ port) in *.
  assert (Hsplit : net.SplitHostPort hp = (host, port, None)).
  { assert (Hcolon : hp = String "[" (host +:+ "]") +:+ String ":" port).
    { subst hp. rewrite (app_cons "[" (host +:+ "]") (String ":" port)).
      rewrite (append_assoc host "]" (String ":" port)). reflexivity. }
    assert (Hshut : hp = String "[" host +:+ String "]" (String ":" port)).
    { reflexivity. }
    assert (Hport : hp = String "[" (host +:+ "]:") +:+ port).
    { subst hp. rewrite (app_cons "[" (host +:+ "]:") port).
      rewrite (append_assoc host "]:" port). reflexivity. }
    assert (Hlen : net.len hp = net.len host + 3 + net.len port).
    { rewrite Hport, len_app, len_cons, len_app.
      change (net.len "]:") with 2. lia. }
    pose proof (len_nonneg host) as Hh. pose proof (len_nonneg port) as Hp.
    assert (Hi : net.LastIndexByte hp ":" = net.len host + 2).
    { rewrite Hcolon, (LastIndexByte_skip ":" _ port Hcp), len_cons, len_app.
      change (net.len "]") with 1. lia. }
    assert (Hend : net.IndexByte hp "]" = net.len host + 1).
    { rewrite Hshut, IndexByte_skip, len_cons; [lia|].
      apply absent_cons. split; [discriminate | exact Hsh]. }
    unfold net.SplitHostPort. rewrite Hi, Hend.
    destruct (Z.ltb_spec (net.len host + 2) 0) as [?|_]; [lia|].
    change (net.byte_is hp 0 "[") with true. cbv iota.
    destruct (Z.ltb_spec (net.len host + 1) 0) as [?|_]; [lia|].
    destruct (Z.eqb_spec (net.len host + 1 + 1) (net.len hp)) as [?|_]; [lia|].
    destruct (Z.eqb_spec (net.len host + 1 + 1) (net.len host + 2)) as [_|?];
      [|lia].
    unfold net.splitTail.
    assert (Hafter1 : net.slice hp 1 (net.len hp)
                      = host +:+ String "]" (String ":" port)).
    { apply (slice_tail "[" (host +:+ String "]" (String ":" port))).
      reflexivity. }
    assert (Hafter2 : net.slice hp (net.len host + 1 + 1) (net.len hp)
                      = String ":" port).
    { rewrite Hcolon. apply slice_tail. rewrite len_cons, len_app.
      change (net.len "]") with 1. lia. }
    rewrite Hafter1, Hafter2.
    assert (Hno1 : absent "[" (host +:+ String "]" (String ":" port))).
    { apply absent_app; [exact Hoh|]. apply absent_cons.
      split; [discriminate|]. apply absent_cons.
      split; [discriminate | exact Hop]. }
    assert (Hno2 : absent "]" (String ":" port)).
    { apply absent_cons. split; [discriminate | exact Hsp]. }
    unfold absent in Hno1, Hno2.
    destruct (Z.leb_spec 0 (net.IndexByte
                (host +:+ String "]" (String ":" port)) "[")) as [?|_]; [lia|].
    destruct (Z.leb_spec 0 (net.IndexByte (String ":" port) "]")) as [?|_];
      [lia|].
    f_equal. f_equal.
    - apply (slice_mid "[" host (String "]" (String ":" port))).
      + reflexivity.
      + rewrite len_cons, len_nil. lia.
    - rewrite Hport. apply slice_tail. rewrite len_cons, len_app.
      change (net.len "]:") with 2. lia. }
  split; [exact Hsplit|].
  unfold extractRemoteIP. rewrite Haddr, Hsplit. reflexivity.
Qed.

Lemma SplitHostPort_of_bracketed_host_witness :
  net.SplitHostPort ("[" +:+ "fe80::1" +:+ "]:" +:+ "443")
  = ("fe80::1", "443", None)
  /\ extractRemoteIP (pingFrom "[fe80::1]:443") = "fe80::1".
Proof.
  apply (SplitHostPort_of_bracketed_host "fe80::1" "443"
           (pingFrom "[fe80::1]:443")); reflexivity.
Defined.

(** ** No bracket in the remote IP *)

Lemma absent_get (c : ascii) (s : string) :
  absent c s <-> forall k : nat, String.get k s <> Some c.
Proof.
  induction s as [|x s IH].
  - split; [intros _ k; destruct k; discriminate | intros _; apply absent_nil].
  - rewrite absent_cons, IH. split.
    + intros [Hx Hs] [|k]; cbn [String.get].
      * intros Heq. inversion Heq. contradiction.
      * apply Hs.
    + intros Hall. split.
      * intros ->. apply (Hall 0%nat). reflexivity.
      * intros k. apply (Hall (S k)).
Qed.

Lemma get_beyond (s : string) :
  forall k : nat, (String.length s <= k)%nat -> String.get k s = None.
Proof.
  induction s as [|x s IH]; intros k Hk.
  - destruct k; reflexivity.
  - destruct k as [|k]; cbn [String.length] in Hk; [lia|].
    cbn [String.get]. apply IH. lia.
Qed.

(** Before its first occurrence the byte does not occur. *)
Lemma IndexByte_first (c : ascii) (s : string) :
  forall k : nat, Z.of_nat k < net.IndexByte s c -> String.get k s <> Some c.
Proof.
  induction s as [|x s IH]; intros k Hk; cbn [net.IndexByte] in Hk.
  - lia.
  - destruct (Ascii.eqb_spec x c) as [->|Hne]; [lia|].
    destruct (Z.ltb_spec (net.IndexByte s c) 0); [lia|].
    destruct k as [|k]; cbn [String.get].
    + intros Heq. inversion Heq. contradiction.
    + apply IH. lia.
Qed.

(** A slice of a string holds no byte that the rest of the string from
    the same start does not hold. *)
Lemma absent_slice_of_tail (c : ascii) (s : string) (i j : Z) :
  0 <= i -> absent c (net.slice s i (net.len s)) -> absent c (net.slice s i j).
Proof.
  unfold net.slice, net.len. intros Hi Htail.
  apply absent_get. intros k. rewrite absent_get in Htail.
  destruct (Nat.lt_ge_cases k (Z.to_nat (j - i))) as [Hin|Hout].
  - rewrite String.substring_correct1 by exact Hin.
    destruct (Nat.lt_ge_cases k (Z.to_nat (Z.of_nat (String.length s) - i)))
      as [Hin2|Hout2].
    + rewrite <- (String.substring_correct1 s (Z.to_nat i)
                    (Z.to_nat (Z.of_nat (String.length s) - i)) k Hin2).
      apply Htail.
    + rewrite get_beyond by lia. discriminate.
  - rewrite String.substring_correct2 by exact Hout. discriminate.
Qed.

Lemma absent_slice_before_first (c : ascii) (s : string) (i : Z) :
  0 <= i -> absent c (net.slice s i (net.IndexByte s c)).
Proof.
  unfold net.slice. intros Hi. apply absent_get. intros k.
  destruct (Nat.lt_ge_cases k (Z.to_nat (net.IndexByte s c - i))) as [Hin|Hout].
  - rewrite String.substring_correct1 by exact Hin.
    apply IndexByte_first. lia.
  - rewrite String.substring_correct2 by exact Hout. discriminate.
Qed.

(** X14: the remote IP taken from a request never holds a bracket,
    whatever the peer address is: a bracketed host is logged without its
    brackets, and an address with a stray bracket is logged as the empty
    host. *)
Theorem extractRemoteIP_has_no_bracket :
  forall req : http.Request,
    absent "[" (extractRemoteIP req) /\ absent "]" (extractRemoteIP req).
Proof.
  intros req. unfold extractRemoteIP.
  set (s := http.RemoteAddr req).
  unfold net.SplitHostPort, net.splitTail, net.addrErr.
  repeat match goal with
         | |- context [if ?b then _ else _] => destruct b eqn:?
         end;
    cbn beta iota; try (split; apply absent_nil).
  - (* bracketed host *)
    match goal with
    | Hopen : (0 <=? net.IndexByte (net.slice s 1 (net.len s)) "[") = false
      |- _ => apply Z.leb_gt in Hopen
    end.
    split.
    + apply absent_slice_of_tail; [lia | assumption].
    + apply absent_slice_before_first. lia.
  - (* plain host *)
    repeat match goal with
           | Hc : (0 <=? net.IndexByte (net.slice s 0 (net.len s)) _) = false
             |- _ => apply Z.leb_gt in Hc
           end.
    split; apply absent_slice_of_tail; (lia || assumption).
Qed.

(** ** Writers that keep the contract of [io.Writer] *)

Section HonestFacts.

Context {RW : Type} `{http.ResponseWriter RW}.

Lemma counts_within_offered (p : http.Calls) :
  honest ->
  forall w : RW, 0 <= total (counts p w) <= total (offered p w).
Proof.
  intros Hhonest.
  induction p as [|k IH|bytes k IH|code k IH|k IH]; intros w; simpl.
  - lia.
  - apply IH.
  - pose proof (Hhonest w bytes) as Hn.
    destruct (http.rw_Write w bytes) as [w1 [n err]]. simpl in *.
    pose proof (IH n err w1). lia.
  - apply IH.
  - apply IH.
Qed.

End HonestFacts.

(** X15: over a writer that keeps the contract of [io.Writer], and as
    long as the bytes the handler offers fit an [int] in total, the size
    the middleware logs is exactly the sum of the counts the writer
    reported: it is never negative and never more than what was
    offered. *)
Theorem logged_size_over_honest_writer :
  forall (RW W : Type) (I : http.ResponseWriter RW)
         (rh : loggerHandler RW W) (res : RW) (req : http.Request)
         (clk : time.Clock),
    honest ->
    total (offered (h rh req) res) <= GoInt.max_int ->
    size (observed rh res req clk) = total (counts (h rh req) res)
    /\ 0 <= size (observed rh res req clk) <= total (offered (h rh req) res).
Proof.
  intros RW W I rh res req clk Hhonest Hfits.
  pose proof (counts_within_offered (h rh req) Hhonest res) as Hbound.
  assert (Hsize : size (observed rh res req clk)
                  = total (counts (h rh req) res)).
  { unfold observed. rewrite serve_size; simpl.
    - apply wrap_id. unfold GoInt.in_range, GoInt.min_int, GoInt.max_int in *.
      lia.
    - unfold GoInt.in_range, GoInt.min_int, GoInt.max_int. lia. }
  rewrite Hsize. split; [reflexivity | exact Hbound].
Qed.

Lemma logged_size_over_honest_writer_witness :
  let rh := {| h := pong; formatType := 0; writer := {| contents := "" |};
               logFn := logTiny; stats := None |} in
  size (observed rh {| taken := "" |} ping (ticking 0 1))
  = total (counts (h rh ping) {| taken := "" |})
  /\ 0 <= size (observed rh {| taken := "" |} ping (ticking 0 1))
     <= total (offered (h rh ping) {| taken := "" |}).
Proof.
  apply (logged_size_over_honest_writer Trickle Buffer _
           {| h := pong; formatType := 0; writer := {| contents := "" |};
              logFn := logTiny; stats := None |}
           {| taken := "" |} ping (ticking 0 1)).
  - intros w bytes. simpl.
    destruct (Z.leb_spec (net.len bytes) 4); simpl.
    + unfold net.len. lia.
    + lia.
  - vm_compute. discriminate.
Defined.

(** Twelve bytes offered to a writer that takes four: four logged. *)
Example trickle_logs_four :
  size (observed
    {| h := pong; formatType := 0; writer := {| contents := "" |};
       logFn := logTiny; stats := None |}
    {| taken := "" |} ping (ticking 0 1)) = 4.
Proof. reflexivity. Qed.
